(** * FaceShapeBot: session state, credit metering and payment handling

    A shallow embedding of the session/router/ledger/payment part of
    [src/bot.py] (class [FaceShapeBot]) together with the properties the
    specification states about it.

    Conventions of the embedding
    - [self.user_data] is a finite map from chat ids to Python dicts; a dict
      is a finite map from string keys to dynamically typed values.
    - Handlers are computations in a state-and-exception monad [M] over a
      [World]: the sessions, the database and the trace of everything the
      bot sent or invoked.
    - External collaborators (payment providers, vision, generation) are
      fields of a record [Collab]; every theorem quantifies over them.
    - [self.bot.send_message] appends to the trace and does not raise. *)

From Stdlib Require Import ZArith String Ascii List Bool Lia.
From stdpp Require Import gmap strings list pretty.

Local Open Scope string_scope.
Local Open Scope Z_scope.

(** ** Dynamically typed values held in a session dict *)

Abbreviation bytes := (list Byte.byte).

(** One entry of a hairstyle option list: [{'name': .., 'value': ..}]. *)
Record choice := { c_name : string; c_value : string }.

(** A hairstyle object as returned by [get_available_hairstyles]. *)
Record hairstyle := {
  h_name : option string;
  h_style : option string;
  h_lengths : list choice;
  h_textures : list choice
}.

(** A credit package offered by a payment module. *)
Record package := { p_id : string; p_price : Z; p_credits : Z }.

Inductive value :=
| VNone
| VBool (b : bool)
| VInt (n : Z)
| VStr (s : string)
| VBytes (b : bytes)
| VLandmarks (l : list (Z * Z))
| VNames (l : list string)
| VHairstyles (l : list hairstyle)
| VChoice (c : choice)
| VMeasurements (l : list (string * Z))
| VPackage (p : package).

(** Python truthiness. *)
Definition truthy (v : value) : bool :=
  match v with
  | VNone => false
  | VBool b => b
  | VInt n => negb (n =? 0)
  | VStr s => negb (String.eqb s "")
  | VBytes b => negb (Nat.eqb (length b) 0)
  | VLandmarks l => negb (Nat.eqb (length l) 0)
  | VNames l => negb (Nat.eqb (length l) 0)
  | VHairstyles l => negb (Nat.eqb (length l) 0)
  | VChoice _ => true
  | VMeasurements l => negb (Nat.eqb (length l) 0)
  | VPackage _ => true
  end.

(** [v == "s"] for a string literal. *)
Definition is_str (v : value) (s : string) : bool :=
  match v with
  | VStr t => String.eqb t s
  | _ => false
  end.

Abbreviation session := (gmap string value).

(** [d.get(key)]: [None] when the key is absent. *)
Definition dict_get (d : session) (key : string) : value :=
  default VNone (d !! key).

(** [key in d]. *)
Definition dict_has (d : session) (key : string) : bool :=
  bool_decide (is_Some (d !! key)).

(** ** The database

    [database.py] is not part of the sources at hand; the ledger and the
    transaction log are modelled from the specification. *)

Inductive tx_status := Pending | Completed | Canceled | Expired.

Definition tx_status_eqb (a b : tx_status) : bool :=
  match a, b with
  | Pending, Pending | Completed, Completed
  | Canceled, Canceled | Expired, Expired => true
  | _, _ => false
  end.

(** Amounts are floats in the source; they are only stored, never
    inspected, and are kept here in hundredths. *)
Record Transaction := {
  t_user : Z;
  t_amount : Z;
  t_credits : Z;
  t_status : tx_status
}.

Record Database := {
  users : gmap Z Z;                      (* telegram id -> credit balance *)
  transactions : gmap string Transaction (* payment id -> transaction *)
}.

(** Modelled from the spec: [get_user_credits] of the absent
    [database.py], the ledger's [getBalance(userId) -> integer]; a user
    without an account has no credits. *)
Definition get_user_credits (d : Database) (uid : Z) : Z :=
  default 0 (users d !! uid).

(** Modelled from the spec: [update_user_credits] of the absent
    [database.py]; it stores the given balance for the user. *)
Definition update_user_credits (uid : Z) (n : Z) (d : Database) : Database :=
  {| users := <[uid := n]> (users d); transactions := transactions d |}.

(** Modelled from the spec: [use_credit] of the absent [database.py], the
    ledger's [charge(userId, amount) -> success|InsufficientCredit], which
    never drives the balance below zero. *)
Definition use_credit (uid : Z) (amount : Z) (d : Database) : bool * Database :=
  let bal := get_user_credits d uid in
  if amount <=? bal
  then (true, update_user_credits uid (bal - amount) d)
  else (false, d).

(** Modelled from the spec: [get_or_create_user] of the absent
    [database.py]; an account is created on first interaction and never
    deleted.  The opening balance is not fixed by the specification and is
    a parameter. *)
Definition get_or_create_user (initial : Z) (uid : Z) (d : Database) : Database :=
  match users d !! uid with
  | Some _ => d
  | None => {| users := <[uid := initial]> (users d);
               transactions := transactions d |}
  end.

(** Modelled from the spec: [create_transaction] of the absent
    [database.py]; a purchase is recorded with status pending. *)
Definition create_transaction (uid amount credits : Z) (pid : string)
    (d : Database) : Database :=
  {| users := users d;
     transactions :=
       <[pid := {| t_user := uid; t_amount := amount;
                   t_credits := credits; t_status := Pending |}]>
         (transactions d) |}.

(** Modelled from the spec: [complete_transaction] of the absent
    [database.py]; a pending transaction grants its credits to its user and
    becomes completed, both together; terminal states are immutable and a
    missing transaction cannot be completed. *)
Definition complete_transaction (pid : string) (d : Database) : bool * Database :=
  match transactions d !! pid with
  | Some t =>
      match t_status t with
      | Pending =>
          (true,
           {| users := <[t_user t := get_user_credits d (t_user t) + t_credits t]>
                         (users d);
              transactions :=
                <[pid := {| t_user := t_user t; t_amount := t_amount t;
                            t_credits := t_credits t; t_status := Completed |}]>
                  (transactions d) |})
      | _ => (false, d)
      end
  | None => (false, d)
  end.

(** ** Messages, invoked handlers and the trace *)

(** The texts the bot sends.  Templates of [config.py] ([BOT_MESSAGES],
    [PREMIUM_MESSAGES]) appear with the arguments they are formatted with. *)
Inductive reply :=
| MsgStart | MsgMenu
| MsgVideoTooLong
| MsgNoPhotoYet
| MsgNotEnoughCredits (credits cost : Z)
| MsgPremiumFeatures
| MsgTryCost (cost credits : Z)
| MsgTryHairstyle
| MsgHairstyleGenerating (name : value) (customization : list string)
| MsgError
| MsgHairstyleApplied (name : value) (remaining : Z) (customization : list string)
| MsgPaymentError
| MsgInvoiceExpired
| MsgPaymentCanceled
| MsgPaymentNotCompleted (status expected : string)
| MsgPaymentAlreadyProcessed (credits total : Z)
| MsgPaymentSuccess (credits total : Z)
| MsgCreditingFailed
| MsgTransactionStatusError
| MsgNoPaymentInfo
| MsgPaymentNotFound
| MsgUnknownPackage
| MsgPaymentProcessingError
| MsgStripeAlreadyProcessed (total : Z)
| MsgStripeProcessed (credits total : Z)
| MsgStripeProcessingError
| MsgStripeCompleted (credits total : Z)
| MsgStripePending
| MsgStripeCanceled
| MsgPaymentFailed
| MsgFeature5Intro
| MsgFeature6Intro
| MsgUseCommands
| MsgProcessing
| MsgNoFace
| MsgNoPhotoReceived
| MsgFaceShapeResult (shape : string)
| MsgTryHairstyleOffer
| MsgAnalysisDone (shape : string) (measurements : list (string * Z))
| MsgLandmarkCaption
| MsgPhotoUploadedDescribeRemoval
| MsgDescribeRemoval
| MsgSymmetryAnalysing
| MsgSymmetryResult (score : Z)
| MsgImageProcessingError
| MsgSymmetryError
| MsgChooseAnalysisMethod (last_result : option string)
| MsgBeautyInfo
| MsgVideoInstructions.

(** Handlers of [bot.py] that are invoked in tail position by the embedded
    ones and are not embedded themselves. *)
Inductive handler :=
| ProcessVideo
| HandlePaymentMethodSelection
| HandlePackageSelection
| GenerateFromTextCommand
| ChangeBackgroundCommand
| ProcessPhotoForAiReplace
| ProcessPhotoForBackgroundRemoval
| ApplySelectedHairstyle
| AnalyzeAttractiveness.

Inductive event :=
| Send (chat : Z) (m : reply)
| SendPhoto (chat : Z) (img : bytes) (m : reply)
| Call (h : handler) (chat : Z).

(** ** The world and the handler monad *)

Record World := {
  user_data : gmap Z session;
  db : Database;
  trace : list event
}.

Inductive outcome (A : Type) :=
| Ret (a : A)
| Raise.
Arguments Ret {A} a.
Arguments Raise {A}.

Definition M (A : Type) : Type := World -> outcome A * World.

Definition ret {A} (a : A) : M A := fun w => (Ret a, w).

Definition raise {A} : M A := fun w => (Raise, w).

Definition bind {A B} (m : M A) (k : A -> M B) : M B :=
  fun w => match m w with
           | (Ret a, w') => k a w'
           | (Raise, w') => (Raise, w')
           end.

(** [try: m except Exception: h]. *)
Definition try_except {A} (m : M A) (h : M A) : M A :=
  fun w => match m w with
           | (Ret a, w') => (Ret a, w')
           | (Raise, w') => h w'
           end.

Declare Scope bot_scope.
Delimit Scope bot_scope with bot.
Notation "x <- m ;; k" := (bind m (fun x => k))
  (at level 100, m at next level, right associativity) : bot_scope.
Notation "m ;;; k" := (bind m (fun _ => k))
  (at level 100, right associativity) : bot_scope.
Local Open Scope bot_scope.

Definition emit (e : event) : M unit :=
  fun w => (Ret tt, {| user_data := user_data w; db := db w;
                       trace := trace w ++ [e] |}).

Definition send_message (chat : Z) (m : reply) : M unit := emit (Send chat m).
Definition send_photo (chat : Z) (img : bytes) (m : reply) : M unit :=
  emit (SendPhoto chat img m).
Definition invoke (h : handler) (chat : Z) : M unit := emit (Call h chat).

(** [safe_send_message]: the send wrapped in its own try/except. *)
Definition safe_send_message (chat : Z) (m : reply) : M unit :=
  send_message chat m.

Definition read_db : M Database := fun w => (Ret (db w), w).

Definition write_db (d : Database) : M unit :=
  fun w => (Ret tt, {| user_data := user_data w; db := d; trace := trace w |}).

Definition read_sessions : M (gmap Z session) := fun w => (Ret (user_data w), w).

Definition write_sessions (u : gmap Z session) : M unit :=
  fun w => (Ret tt, {| user_data := u; db := db w; trace := trace w |}).

(** [chat_id in self.user_data]. *)
Definition has_chat (chat : Z) : M bool :=
  u <- read_sessions ;; ret (bool_decide (is_Some (u !! chat))).

(** [self.user_data[chat_id]], a [KeyError] when the chat is unknown. *)
Definition the_session (chat : Z) : M session :=
  u <- read_sessions ;;
  match u !! chat with
  | Some s => ret s
  | None => raise
  end.

(** [self.user_data.get(chat_id, {})]. *)
Definition session_or_empty (chat : Z) : M session :=
  u <- read_sessions ;; ret (default ∅ (u !! chat)).

(** [self.user_data[chat_id][key] = v]. *)
Definition session_set (chat : Z) (key : string) (v : value) : M unit :=
  s <- the_session chat ;;
  u <- read_sessions ;;
  write_sessions (<[chat := <[key := v]> s]> u).

(** [self.user_data[chat_id][key]], a [KeyError] when the key is absent. *)
Definition session_index (chat : Z) (key : string) : M value :=
  s <- the_session chat ;;
  match s !! key with
  | Some v => ret v
  | None => raise
  end.

(** [self.user_data[chat_id].update(...)] and the like: the dict of the chat
    is changed in place. *)
Definition session_update (chat : Z) (f : session -> session) : M unit :=
  s <- the_session chat ;;
  u <- read_sessions ;;
  write_sessions (<[chat := f s]> u).

(** [if chat_id not in self.user_data: self.user_data[chat_id] = {}]. *)
Definition init_session (chat : Z) : M unit :=
  u <- read_sessions ;;
  match u !! chat with
  | Some _ => ret tt
  | None => write_sessions (<[chat := ∅]> u)
  end.

(** ** Incoming updates *)

Record message := {
  msg_chat : Z;
  msg_text : string;
  msg_photo : list string;     (* file ids of the photo sizes *)
  msg_video_duration : Z
}.

(** ** [_reset_all_waiting_states] *)

Definition waiting_flags : list string :=
  [ "waiting_for_text_prompt";
    "waiting_for_replace_prompt";
    "waiting_for_background_prompt";
    "waiting_for_style_choice";
    "waiting_for_style_image";
    "waiting_for_payment_method";
    "waiting_for_package_selection";
    "waiting_for_hairstyle_selection" ].

(** One turn of the loop: [if flag in d: d[flag] = False]. *)
Definition clear_flag (d : session) (flag : string) : session :=
  match d !! flag with
  | Some _ => <[flag := VBool false]> d
  | None => d
  end.

Definition reset_session (d : session) : session :=
  let d1 := foldl clear_flag d waiting_flags in
  match d1 !! "current_feature" with
  | Some _ => <["current_feature" := VNone]> d1
  | None => d1
  end.

Definition _reset_all_waiting_states (chat : Z) : M unit :=
  u <- read_sessions ;;
  match u !! chat with
  | None => write_sessions (<[chat := ∅]> u)
  | Some d => write_sessions (<[chat := reset_session d]> u)
  end.

(** ** [menu_command] *)

Definition menu_command (msg : message) : M unit :=
  let chat_id := msg_chat msg in
  _reset_all_waiting_states chat_id ;;;
  send_message chat_id MsgMenu.

(** ** [handle_video] *)

Definition handle_video (msg : message) : M unit :=
  let chat_id := msg_chat msg in
  if 8 <? msg_video_duration msg
  then send_message chat_id MsgVideoTooLong
  else invoke ProcessVideo chat_id.

(** ** Python helpers *)

(** [s.startswith(p)]. *)
Definition startswith (s p : string) : bool := String.prefix p s.

(** [l[i]] for a Python list: negative indices count from the end and an
    index out of range raises. *)
Definition py_nth {A} (l : list A) (i : Z) : option A :=
  let n := Z.of_nat (length l) in
  if (0 <=? i) && (i <? n) then l !! Z.to_nat i
  else if (i <? 0) && (- n <=? i) then l !! Z.to_nat (n + i)
  else None.

(** [len(d) > 0], the truth value of a dict. *)
Definition dict_truthy (d : session) : bool := negb (Nat.eqb (size d) 0).

(** The truth value of [d] for [d] a dict or [None]. *)
Definition opt_dict_truthy (d : option session) : bool :=
  match d with
  | Some d => dict_truthy d
  | None => false
  end.

(** [d.get(key, dflt)]. *)
Definition dict_get_default (d : session) (key : string) (dflt : value) : value :=
  default dflt (d !! key).

(** [str(v) == str(chat_id)] for an integer [chat_id]: only an equal integer
    or its decimal numeral prints like [chat_id]. *)
Definition str_eq_int (v : value) (chat : Z) : bool :=
  match v with
  | VInt n => n =? chat
  | VStr s => String.eqb s (pretty chat)
  | _ => false
  end.

(** [n + v] for an integer [n]: a [TypeError] unless [v] is an integer. *)
Definition as_int (v : value) : M Z :=
  match v with
  | VInt n => ret n
  | VBool b => ret (Z.b2z b)
  | _ => raise
  end.

(** Lift the answer of a collaborator into the monad. *)
Definition ask {A} (o : outcome A) : M A := fun w => (o, w).

(** [s.replace(old, '')] for a non-empty [old]: every occurrence, scanning
    from the left, is dropped.  [skip] counts the characters of the current
    occurrence that are still to be dropped. *)
Fixpoint remove_all_from (old : string) (skip : nat) (s : string) : string :=
  match s with
  | EmptyString => EmptyString
  | String c rest =>
      match skip with
      | S k => remove_all_from old k rest
      | O =>
          if String.prefix old s
          then remove_all_from old (String.length old - 1) rest
          else String c (remove_all_from old O rest)
      end
  end.

Definition remove_all (old s : string) : string := remove_all_from old O s.

Definition is_space (c : ascii) : bool :=
  let n := nat_of_ascii c in
  (Nat.eqb n 32) || ((Nat.leb 9 n) && (Nat.leb n 13)) ||
  ((Nat.leb 28 n) && (Nat.leb n 31)).

(** [s.split()]: the maximal runs of non-blank characters.  [cur] is the
    run being read, reversed. *)
Fixpoint split_ws_from (cur : list ascii) (s : string) : list string :=
  let flush := match cur with
               | [] => []
               | _ => [string_of_list_ascii (rev cur)]
               end in
  match s with
  | EmptyString => flush
  | String c rest =>
      if is_space c then flush ++ split_ws_from [] rest
      else split_ws_from (c :: cur) rest
  end.

Definition split_ws (s : string) : list string := split_ws_from [] s.

(** [s.split(sep)] for a one-character separator. *)
Fixpoint split_on_from (sep : ascii) (cur : list ascii) (s : string) : list string :=
  match s with
  | EmptyString => [string_of_list_ascii (rev cur)]
  | String c rest =>
      if Ascii.eqb c sep
      then string_of_list_ascii (rev cur) :: split_on_from sep [] rest
      else split_on_from sep (c :: cur) rest
  end.

Definition split_on (sep : ascii) (s : string) : list string :=
  split_on_from sep [] s.

(** [key, value = item.split(":", 1)] when [":" in item]. *)
Fixpoint split_first_from (sep : ascii) (cur : list ascii) (s : string)
    : option (string * string) :=
  match s with
  | EmptyString => None
  | String c rest =>
      if Ascii.eqb c sep
      then Some (string_of_list_ascii (rev cur), rest)
      else split_first_from sep (c :: cur) rest
  end.

(** The loop that fills [metadata] from ["k1:v1,k2:v2"]. *)
Definition parse_metadata (text : string) : gmap string string :=
  foldl (fun md item =>
           match split_first_from ":" [] item with
           | Some (k, v) => <[k := v]> md
           | None => md
           end)
        ∅ (split_on "," text).

(** [s.isdigit()] on ASCII text: non-empty and decimal digits only. *)
Fixpoint all_digits (s : string) : bool :=
  match s with
  | EmptyString => true
  | String c rest =>
      let n := nat_of_ascii c in
      (Nat.leb 48 n) && (Nat.leb n 57) && all_digits rest
  end.

Definition isdigit (s : string) : bool :=
  negb (String.eqb s "") && all_digits s.

(** ** External collaborators *)

Inductive symmetry_outcome :=
| SymNoFace
| SymEncodeFailed
| SymDone (img : bytes) (score : Z).

Record Collab := {
  (* legacy CryptoPayment *)
  crypto_check_payment_status : string -> outcome value;
  (* StripePayment and the stripe SDK *)
  stripe_check_payment_status : string -> outcome value;
  stripe_session_retrieve : string -> outcome (option value);
  stripe_get_payment_data : string -> outcome (option session);
  (* CryptoBotPayment, [self.payment_module] *)
  cb_check_payment_status : string -> outcome value;
  cb_get_payment_data : string -> outcome (option session);
  cb_get_invoice : string -> outcome (option session);
  cb_get_credits_by_package_id : value -> Z;
  (* [float(x)] on text *)
  float_of_string : string -> option Z;
  (* opening balance of a new account *)
  initial_credits : Z;
  (* transport: file download *)
  download_file : string -> outcome bytes;
  (* FaceAnalyzer *)
  analyze_face_shape :
    bytes -> outcome (option string * bytes * list (string * Z));
  detect_landmarks : bytes -> outcome (option (list (Z * Z)));
  reanalyze_landmarks : bytes -> outcome (option (list (Z * Z)));
  get_available_hairstyles : value -> value -> outcome (list hairstyle);
  (* the session is passed along because the prompt the source assembles
     from the stored selections and injects into the client reaches the
     collaborator only *)
  apply_hairstyle :
    session -> value -> value -> value -> Z -> outcome (option bytes);
  symmetry_analysis : bytes -> outcome symmetry_outcome;
  (* HairstyleRecommender *)
  get_recommendations : string -> outcome (string * list string);
  (* [FACE_SHAPE_CRITERIA[shape]["description"]] of [config.py] *)
  face_shape_criteria : value -> option string
}.

(** [float(v)]. *)
Definition py_float (C : Collab) (v : value) : M Z :=
  match v with
  | VInt n => ret (100 * n)
  | VBool b => ret (100 * Z.b2z b)
  | VStr s => match float_of_string C s with
              | Some h => ret h
              | None => raise
              end
  | _ => raise
  end.

(** ** Hairstyle try-on *)

Section Handlers.

Variable C : Collab.

(** [try_hairstyle_command]. *)
Definition try_hairstyle_command (msg : message) : M unit :=
  let chat_id := msg_chat msg in
  u <- read_sessions ;;
  match u !! chat_id with
  | None => send_message chat_id MsgNoPhotoYet
  | Some d =>
      if negb (dict_has d "face_shape")
      then send_message chat_id MsgNoPhotoYet
      else
        d0 <- read_db ;;
        let credits := get_user_credits d0 chat_id in
        let cost := 2 in
        if credits <? cost
        then
          send_message chat_id (MsgNotEnoughCredits credits cost) ;;;
          send_message chat_id MsgPremiumFeatures
        else
          send_message chat_id (MsgTryCost cost credits) ;;;
          face_shape <- session_index chat_id "face_shape" ;;
          session_set chat_id "waiting_for_hairstyle_selection" (VBool true) ;;;
          session_set chat_id "customization_state" (VStr "selecting_gender") ;;;
          session_set chat_id "face_shape" face_shape ;;;
          send_message chat_id MsgTryHairstyle
  end.

(** A stored selection [{'name': .., 'value': ..}] or nothing; anything else
    cannot be subscripted with ['name']. *)
Definition selection (v : value) : M (option choice) :=
  match v with
  | VChoice c => ret (Some c)
  | _ => if truthy v then raise else ret None
  end.

(** The lines of [customization_text]. *)
Definition customization_text (color len texture : option choice) : list string :=
  (match color with Some c => [c_name c] | None => [] end) ++
  (match len with Some c => [c_name c] | None => [] end) ++
  (match texture with Some c => [c_name c] | None => [] end).

(** The landmark refresh of [generate_hairstyle]: when no landmarks are
    stored the face is analysed again; a failure stores [None]. *)
Definition refresh_landmarks (chat_id : Z) (image_data : value) : M unit :=
  d <- the_session chat_id ;;
  let missing :=
    match d !! "landmarks" with
    | Some v => negb (truthy v)
    | None => true
    end in
  if missing
  then
    match image_data with
    | VBytes img =>
        match reanalyze_landmarks C img with
        | Ret (Some l) =>
            session_set chat_id "landmarks"
              (if truthy (VLandmarks l) then VLandmarks l else VNone)
        | _ => session_set chat_id "landmarks" VNone
        end
    | _ => session_set chat_id "landmarks" VNone
    end
  else ret tt.

(** [generate_hairstyle].  The prompt the source assembles between reading
    the selections and announcing the generation (translation and string
    surgery on the style text, then injected into the client) has no effect
    on the session, the ledger or the messages; it is part of what
    [apply_hairstyle] answers. *)
Definition generate_hairstyle (chat_id : Z) : M unit :=
  (* Reset waiting state *)
  session_set chat_id "waiting_for_hairstyle_selection" (VBool false) ;;;
  session_set chat_id "customization_state" (VStr "selecting_style") ;;;
  (* Get all selections *)
  hairstyle_index <- session_index chat_id "selected_hairstyle_index" ;;
  hairstyle_name <- session_index chat_id "selected_hairstyle_name" ;;
  objects <- session_index chat_id "hairstyle_objects" ;;
  match hairstyle_index, objects with
  | VInt idx, VHairstyles objs =>
      match py_nth objs idx with
      | None => raise
      | Some _ =>
          d <- the_session chat_id ;;
          color <- selection (dict_get d "selected_color") ;;
          len <- selection (dict_get d "selected_length") ;;
          texture <- selection (dict_get d "selected_texture") ;;
          let custom := customization_text color len texture in
          send_message chat_id (MsgHairstyleGenerating hairstyle_name custom) ;;;
          image_data <- session_index chat_id "image_data" ;;
          face_shape <- session_index chat_id "face_shape" ;;
          refresh_landmarks chat_id image_data ;;;
          d' <- the_session chat_id ;;
          let landmarks := dict_get d' "landmarks" in
          try_except
            (let gender := dict_get d' "selected_gender" in
             _ <- ask (get_available_hairstyles C face_shape gender) ;;
             result <- ask (apply_hairstyle C d' image_data landmarks
                              face_shape idx) ;;
             match result with
             | Some (b :: img) =>
                 (* charged after a successful generation only *)
                 d0 <- read_db ;;
                 write_db (snd (use_credit chat_id 2 d0)) ;;;
                 d1 <- read_db ;;
                 let credits := get_user_credits d1 chat_id in
                 send_photo chat_id (b :: img)
                   (MsgHairstyleApplied hairstyle_name credits custom)
             | _ =>
                 send_message chat_id MsgError
             end)
            (send_message chat_id MsgError)
      end
  | _, _ => raise
  end.

(** ** Feature-entry commands *)

(** [faceshape_command]. *)
Definition faceshape_command (msg : message) : M unit :=
  let chat_id := msg_chat msg in
  init_session chat_id ;;;
  session_set chat_id "current_feature" (VStr "2") ;;;
  d <- the_session chat_id ;;
  instructions <-
    match d !! "face_shape" with
    | Some face_shape =>
        match face_shape_criteria C face_shape with
        | Some description => ret (MsgChooseAnalysisMethod (Some description))
        | None => raise
        end
    | None => ret (MsgChooseAnalysisMethod None)
    end ;;
  send_message chat_id instructions ;;;
  session_set chat_id "awaiting_analysis_method" (VBool true).




(** ** Payment handling *)

Inductive provider := LegacyCrypto | Stripe | CryptoBot.

(** The provider a payment id is taken to belong to. *)
Definition provider_of (payment_id : string) : provider :=
  if startswith payment_id "TEST_" || startswith payment_id "CP_"
  then LegacyCrypto
  else if startswith payment_id "cs_" || startswith payment_id "pi_"
  then Stripe
  else CryptoBot.

(** The status that counts as success for a provider. *)
Definition success_status (p : provider) : string :=
  match p with
  | LegacyCrypto => "completed"
  | Stripe => "completed"
  | CryptoBot => "paid"
  end.

(** The first part of [handle_successful_payment]: ask the provider chosen
    by the shape of the id for the status and the payment data. *)
Definition check_provider (payment_id : string) : M (value * option session) :=
  match provider_of payment_id with
  | LegacyCrypto =>
      payment_status <- ask (crypto_check_payment_status C payment_id) ;;
      ret (payment_status, None)
  | Stripe =>
      try_except
        (st <- ask (stripe_check_payment_status C payment_id) ;;
         payment_status <-
           match st with
           | VNone =>
               s <- ask (stripe_session_retrieve C payment_id) ;;
               match s with
               | Some ps => if is_str ps "paid"
                            then ret (VStr "completed")
                            else ret (VStr "pending")
               | None => ret (VStr "pending")
               end
           | _ => ret st
           end ;;
         payment_data <-
           try_except (ask (stripe_get_payment_data C payment_id)) (ret None) ;;
         ret (payment_status, payment_data))
        (ret (VStr "error", None))
  | CryptoBot =>
      payment_status <- ask (cb_check_payment_status C payment_id) ;;
      payment_data <- ask (cb_get_payment_data C payment_id) ;;
      ret (payment_status, payment_data)
  end.

(** The text of a status inside a message. *)
Definition status_text (v : value) : string :=
  match v with
  | VStr s => s
  | VNone => "None"
  | _ => "?"
  end.

(** The metadata of a Crypto Bot invoice: the payload, else the hidden
    message. *)
Definition invoice_metadata (invoice : session) : M (gmap string string) :=
  let payload := dict_get_default invoice "payload" (VStr "") in
  let hidden_message := dict_get_default invoice "hidden_message" (VStr "") in
  if truthy payload
  then match payload with
       | VStr p => ret (parse_metadata p)
       | _ => raise
       end
  else if truthy hidden_message
  then match hidden_message with
       | VStr h => ret (parse_metadata h)
       | _ => raise
       end
  else ret ∅.

(** The branch of [handle_successful_payment] that creates the missing
    transaction from the provider's data; [found] is [None] on the paths
    that have already answered the user. *)
Definition reconstruct_transaction (chat_id : Z) (payment_id : string)
    (payment_data : option session) : M bool :=
  found <-
    (if opt_dict_truthy payment_data
     then
       let pd := default ∅ payment_data in
       amount <- py_float C (dict_get_default pd "amount" (VInt 0)) ;;
       ret (Some (dict_get pd "package_id", amount))
     else
       if negb (startswith payment_id "TEST_") &&
          negb (startswith payment_id "CP_")
       then
         invoice <- ask (cb_get_invoice C payment_id) ;;
         if negb (opt_dict_truthy invoice)
         then send_message chat_id MsgNoPaymentInfo ;;; ret None
         else
           let inv := default ∅ invoice in
           metadata <- invoice_metadata inv ;;
           amount <- py_float C (dict_get_default inv "amount" (VInt 0)) ;;
           ret (Some (match metadata !! "package_id" with
                      | Some p => VStr p
                      | None => VNone
                      end, amount))
       else send_message chat_id MsgPaymentNotFound ;;; ret None) ;;
  match found with
  | None => ret false
  | Some (package_id, amount) =>
      let credits := cb_get_credits_by_package_id C package_id in
      if 0 <? credits
      then
        d0 <- read_db ;;
        write_db (create_transaction chat_id amount credits payment_id d0) ;;;
        d1 <- read_db ;;
        let '(ok, d2) := complete_transaction payment_id d1 in
        write_db d2 ;;;
        if ok
        then
          let total_credits := get_user_credits d2 chat_id in
          try_except
            (send_message chat_id (MsgPaymentSuccess credits total_credits))
            (ret tt) ;;;
          ret true
        else send_message chat_id MsgCreditingFailed ;;; ret false
      else send_message chat_id MsgUnknownPackage ;;; ret false
  end.

(** [handle_successful_payment]. *)
Definition handle_successful_payment (chat_id : Z) (payment_id : string) : M bool :=
  try_except
    (checked <- check_provider payment_id ;;
     let '(payment_status, payment_data) := checked in
     let success := success_status (provider_of payment_id) in
     if is_str payment_status "error"
     then safe_send_message chat_id MsgPaymentError ;;; ret false
     else if negb (is_str payment_status success)
     then
       if is_str payment_status "expired"
       then safe_send_message chat_id MsgInvoiceExpired ;;; ret false
       else if is_str payment_status "canceled"
       then safe_send_message chat_id MsgPaymentCanceled ;;; ret false
       else
         safe_send_message chat_id
           (MsgPaymentNotCompleted (status_text payment_status) success) ;;;
         ret false
     else
       d0 <- read_db ;;
       match transactions d0 !! payment_id with
       | Some transaction =>
           match t_status transaction with
           | Completed =>
               let credits := get_user_credits d0 chat_id in
               safe_send_message chat_id
                 (MsgPaymentAlreadyProcessed (t_credits transaction) credits) ;;;
               ret true
           | Pending =>
               let '(ok, d1) := complete_transaction payment_id d0 in
               write_db d1 ;;;
               if ok
               then
                 let credits := get_user_credits d1 chat_id in
                 safe_send_message chat_id
                   (MsgPaymentSuccess (t_credits transaction) credits) ;;;
                 ret true
               else send_message chat_id MsgCreditingFailed ;;; ret false
           | _ =>
               send_message chat_id MsgTransactionStatusError ;;; ret false
           end
       | None => reconstruct_transaction chat_id payment_id payment_data
       end)
    (send_message chat_id MsgPaymentProcessingError ;;; ret false).

(** Credit the user directly: [update_user_credits(chat_id, current + n)];
    the new balance is returned. *)
Definition add_credits (chat_id : Z) (credits : value) : M (Z * Z) :=
  d <- read_db ;;
  let current_credits := get_user_credits d chat_id in
  n <- as_int credits ;;
  let updated_credits := current_credits + n in
  write_db (update_user_credits chat_id updated_credits d) ;;;
  ret (n, updated_credits).

Definition mark_completed (t : Transaction) : Transaction :=
  {| t_user := t_user t; t_amount := t_amount t;
     t_credits := t_credits t; t_status := Completed |}.

(** [handle_stripe_payment], the simplified handler for Stripe payment
    links. *)
Definition handle_stripe_payment (chat_id : Z) (session_id : string) : M bool :=
  try_except
    (d0 <- read_db ;;
     let existing_transaction := transactions d0 !! session_id in
     let already :=
       match existing_transaction with
       | Some t => tx_status_eqb (t_status t) Completed
       | None => false
       end in
     if already
     then
       let current_credits := get_user_credits d0 chat_id in
       safe_send_message chat_id (MsgStripeAlreadyProcessed current_credits) ;;;
       ret true
     else
       payment_data <- ask (stripe_get_payment_data C session_id) ;;
       let credits :=
         if opt_dict_truthy payment_data
         then dict_get_default (default ∅ payment_data) "credits" (VInt 5)
         else VInt 5 in
       recorded <-
         match existing_transaction with
         | Some t =>
             write_db {| users := users d0;
                         transactions :=
                           <[session_id := mark_completed t]> (transactions d0) |} ;;;
             ret true
         | None =>
             match users d0 !! chat_id with
             | Some _ =>
                 n <- as_int credits ;;
                 write_db {| users := users d0;
                             transactions :=
                               <[session_id :=
                                   {| t_user := chat_id; t_amount := 40;
                                      t_credits := n; t_status := Completed |}]>
                                 (transactions d0) |} ;;;
                 ret true
             | None => ret false
             end
         end ;;
       if recorded
       then
         granted <- add_credits chat_id credits ;;
         safe_send_message chat_id
           (MsgStripeProcessed (fst granted) (snd granted)) ;;;
         ret true
       else ret false)
    (safe_send_message chat_id MsgStripeProcessingError ;;; ret false).

(** The return from a Stripe checkout that is not a payment link: the
    branch of [start] below ["success_"]. *)
Definition stripe_return (chat_id : Z) (session_id : string) : M unit :=
  status <- ask (stripe_check_payment_status C session_id) ;;
  if is_str status "completed"
  then
    payment_data <- ask (stripe_get_payment_data C session_id) ;;
    let pd := default ∅ payment_data in
    if opt_dict_truthy payment_data &&
       str_eq_int (dict_get pd "telegram_id") chat_id
    then
      granted <- add_credits chat_id (dict_get_default pd "credits" (VInt 0)) ;;
      d <- read_db ;;
      write_db (snd (complete_transaction session_id d)) ;;;
      safe_send_message chat_id
        (MsgStripeCompleted (fst granted) (snd granted))
    else
      let credits :=
        if opt_dict_truthy payment_data
        then dict_get_default pd "credits" (VInt 5)
        else VInt 5 in
      granted <- add_credits chat_id credits ;;
      safe_send_message chat_id
        (MsgStripeCompleted (fst granted) (snd granted))
  else if is_str status "pending"
  then safe_send_message chat_id MsgStripePending
  else
    (* credited in spite of the status: the user came back through the
       success URL *)
    granted <- add_credits chat_id (VInt 5) ;;
    safe_send_message chat_id (MsgStripeCompleted (fst granted) (snd granted)).

(** The second look of [start] at its parameter, after the user record has
    been created. *)
Definition start_payment_param (chat_id : Z) (start_param : string)
    (otherwise : M unit) : M unit :=
  if startswith start_param "success_" || startswith start_param "success-"
  then
    let payment_id := remove_all "success-" (remove_all "success_" start_param) in
    handle_successful_payment chat_id payment_id ;;; ret tt
  else if startswith start_param "fail_" || startswith start_param "cancel-"
  then send_message chat_id MsgPaymentFailed
  else otherwise.

(** [start]. *)
Definition start (msg : message) : M unit :=
  let chat_id := msg_chat msg in
  _reset_all_waiting_states chat_id ;;;
  let words := split_ws (msg_text msg) in
  let greet :=
    d <- read_db ;;
    write_db (get_or_create_user (initial_credits C) chat_id d) ;;;
    match words with
    | _ :: start_param :: _ =>
        start_payment_param chat_id start_param
          (send_message chat_id MsgStart)
    | _ => send_message chat_id MsgStart
    end in
  match words with
  | _ :: params :: _ =>
      if startswith params "success_payment_"
      then
        handle_stripe_payment chat_id (remove_all "success_payment_" params) ;;;
        ret tt
      else if startswith params "success_" || startswith params "success-"
      then
        let session_id :=
          if startswith params "success_"
          then remove_all "success_" params
          else remove_all "success-" params in
        if startswith session_id "pl_"
        then handle_stripe_payment chat_id session_id ;;; ret tt
        else stripe_return chat_id session_id
      else if startswith params "cancel_" || startswith params "cancel-"
      then safe_send_message chat_id MsgStripeCanceled
      else greet
  | _ => greet
  end.

(** ** The text router, [handle_text] *)

Definition handle_text (msg : message) : M unit :=
  let text := msg_text msg in
  if startswith text "/" then ret tt
  else
    let chat_id := msg_chat msg in
    init_session chat_id ;;;
    d <- the_session chat_id ;;
    if truthy (dict_get d "waiting_for_payment_method")
    then invoke HandlePaymentMethodSelection chat_id
    else if isdigit text && String.eqb text "5"
    then
      session_set chat_id "current_feature" (VStr "5") ;;;
      send_message chat_id MsgFeature5Intro
    else if isdigit text && String.eqb text "6"
    then
      session_set chat_id "current_feature" (VStr "6") ;;;
      send_message chat_id MsgFeature6Intro
    else if isdigit text && String.eqb text "7"
    then invoke GenerateFromTextCommand chat_id
    else if is_str (dict_get d "current_feature") "5" && dict_has d "image_data"
    then
      session_set chat_id "background_prompt" (VStr text) ;;;
      session_set chat_id "waiting_for_background_prompt" (VBool true) ;;;
      invoke ChangeBackgroundCommand chat_id
    else if is_str (dict_get d "current_feature") "6" && dict_has d "image_data"
    then
      session_set chat_id "replace_prompt" (VStr text) ;;;
      invoke ProcessPhotoForAiReplace chat_id
    else if truthy (dict_get d "waiting_for_package_selection")
    then invoke HandlePackageSelection chat_id
    else if truthy (dict_get d "waiting_for_payment_method")
    then invoke HandlePaymentMethodSelection chat_id
    else if truthy (dict_get d "waiting_for_hairstyle_selection")
    then invoke ApplySelectedHairstyle chat_id
    else if truthy (dict_get d "waiting_for_text_prompt")
    then invoke GenerateFromTextCommand chat_id
    else if truthy (dict_get d "waiting_for_background_prompt")
    then invoke ChangeBackgroundCommand chat_id
    else send_message chat_id MsgUseCommands.

(** ** The photo handler, [process_photo] *)

(** [photos[-1]] followed by the download of that file. *)
Definition download_largest (photos : list string) : M bytes :=
  match last photos with
  | Some file_id => ask (download_file C file_id)
  | None => raise
  end.

(** [current_feature] of a chat, [None] when the chat has no session. *)
Definition current_feature_of (u : gmap Z session) (chat_id : Z) : value :=
  match u !! chat_id with
  | Some d => dict_get d "current_feature"
  | None => VNone
  end.

(** Feature 3: the symmetry check on the uploaded photo. *)
Definition photo_symmetry (msg : message) : M unit :=
  let chat_id := msg_chat msg in
  match msg_photo msg with
  | [] => send_message chat_id MsgNoFace
  | photos =>
      downloaded <- download_largest photos ;;
      init_session chat_id ;;;
      session_set chat_id "image_data" (VBytes downloaded) ;;;
      send_message chat_id MsgSymmetryAnalysing ;;;
      try_except
        (r <- ask (symmetry_analysis C downloaded) ;;
         match r with
         | SymNoFace => send_message chat_id MsgNoFace
         | SymEncodeFailed => send_message chat_id MsgImageProcessingError
         | SymDone img score =>
             send_photo chat_id img (MsgSymmetryResult score) ;;;
             _reset_all_waiting_states chat_id
         end)
        (send_message chat_id MsgSymmetryError)
  end.

(** Feature 2: face-shape analysis on request. *)
Definition photo_face_shape (msg : message) : M unit :=
  let chat_id := msg_chat msg in
  match msg_photo msg with
  | [] => send_message chat_id MsgNoPhotoReceived
  | photos =>
      downloaded <- download_largest photos ;;
      session_set chat_id "image_data" (VBytes downloaded) ;;;
      send_message chat_id MsgProcessing ;;;
      r <- ask (analyze_face_shape C downloaded) ;;
      let '(face_shape, vis_image_bytes, measurements) := r in
      match face_shape with
      | None => send_message chat_id MsgNoFace
      | Some shape =>
          session_set chat_id "face_shape" (VStr shape) ;;;
          session_set chat_id "face_measurements" (VMeasurements measurements) ;;;
          session_set chat_id "processed_image" (VBytes vis_image_bytes) ;;;
          rec <- ask (get_recommendations C shape) ;;
          send_photo chat_id vis_image_bytes (MsgFaceShapeResult (fst rec)) ;;;
          send_message chat_id MsgTryHairstyleOffer ;;;
          session_set chat_id "current_feature" VNone
      end
  end.

(** Feature 4: the photo is stored and handed to the attractiveness
    analysis. *)
Definition photo_attractiveness (msg : message) : M unit :=
  let chat_id := msg_chat msg in
  match msg_photo msg with
  | [] => send_message chat_id MsgNoPhotoReceived
  | photos =>
      downloaded <- download_largest photos ;;
      session_set chat_id "image_data" (VBytes downloaded) ;;;
      invoke AnalyzeAttractiveness chat_id
  end.

(** [d.update({...})] after the landmarks were extracted. *)
Definition store_analysis (shape : string) (landmarks : list (Z * Z))
    (downloaded : bytes) (d : session) : session :=
  <["waiting_for_hairstyle_selection" := VBool false]>
    (<["image_data" := VBytes downloaded]>
       (<["landmarks" := VLandmarks landmarks]>
          (<["face_shape" := VStr shape]> d))).

(** The part of [process_photo] reached when no feature branch applies: the
    standard face analysis. *)
Definition photo_default (msg : message) : M unit :=
  let chat_id := msg_chat msg in
  send_message chat_id MsgProcessing ;;;
  match msg_photo msg with
  | [] => send_message chat_id MsgNoFace
  | photos =>
      downloaded <- download_largest photos ;;
      init_session chat_id ;;;
      session_set chat_id "image_data" (VBytes downloaded) ;;;
      r <- ask (analyze_face_shape C downloaded) ;;
      let '(face_shape, vis_image_bytes, measurements) := r in
      match face_shape with
      | None => send_message chat_id MsgNoFace
      | Some shape =>
          rec <- ask (get_recommendations C shape) ;;
          try_except
            (found <- ask (detect_landmarks C downloaded) ;;
             match found with
             | Some landmarks =>
                 init_session chat_id ;;;
                 session_update chat_id
                   (store_analysis shape landmarks downloaded)
             | None => ret tt
             end)
            (ret tt) ;;;
          (if truthy (VBytes vis_image_bytes)
           then send_photo chat_id vis_image_bytes MsgLandmarkCaption
           else ret tt) ;;;
          send_message chat_id (MsgAnalysisDone (fst rec) measurements)
      end
  end.

(** [process_photo]. *)
Definition process_photo (msg : message) : M unit :=
  let chat_id := msg_chat msg in
  try_except
    (u <- read_sessions ;;
     let feature := current_feature_of u chat_id in
     if is_str feature "3" then photo_symmetry msg
     else if is_str feature "5"
     then invoke ProcessPhotoForBackgroundRemoval chat_id
     else if is_str feature "6"
     then invoke ProcessPhotoForAiReplace chat_id
     else if is_str feature "2" then photo_face_shape msg
     else if is_str feature "4" then photo_attractiveness msg
     else photo_default msg)
    (if chat_id =? 0 then ret tt else send_message chat_id MsgError).

End Handlers.

(** The session of a chat in a world, empty when there is none. *)
Definition session_of (w : World) (chat : Z) : session :=
  default ∅ (user_data w !! chat).

(** The credit balance of a user in a world. *)
Definition balance (w : World) (uid : Z) : Z := get_user_credits (db w) uid.

(** What a handler appended to the trace. *)
Definition new_events (w w' : World) : list event :=
  drop (length (trace w)) (trace w').

(** The wait reasons of a session that are set: the eight flags of
    [waiting_flags] and the analysis-method flag of [faceshape_command]. *)
Definition wait_reasons : list string :=
  waiting_flags ++ ["awaiting_analysis_method"].

Definition active_wait_reasons (d : session) : list string :=
  filter (fun k => truthy (dict_get d k) = true) wait_reasons.

(** * Vocabulary of the properties *)

(** ** Frame conditions of the monad

    [keeps_sessions m]: the computation leaves [self.user_data] alone;
    [keeps_db m]: it leaves the database alone. *)

Definition keeps_sessions {A} (m : M A) : Prop :=
  forall w, user_data (snd (m w)) = user_data w.

Definition keeps_db {A} (m : M A) : Prop :=
  forall w, db (snd (m w)) = db w.

Definition flags_cleared (d : session) : Prop :=
  Forall (fun flag => truthy (dict_get d flag) = false) waiting_flags.



(** [preserves Q m]: [Q] survives the computation; [reads_only m]: the
    computation changes nothing at all. *)
Definition preserves {A} (Q : World -> Prop) (m : M A) : Prop :=
  forall w, Q w -> Q (snd (m w)).

Definition reads_only {A} (m : M A) : Prop := forall w, snd (m w) = w.

(** The generation collaborator produced no image: [None], empty bytes, or
    an exception. *)
Definition generation_failed (o : outcome (option bytes)) : Prop :=
  match o with
  | Ret (Some (_ :: _)) => False
  | _ => True
  end.

(** The state [generate_hairstyle] puts the hairstyle flow in before it
    does anything else. *)
Definition hairstyle_wait_reset (chat : Z) (w : World) : Prop :=
  session_of w chat !! "waiting_for_hairstyle_selection" = Some (VBool false) /\
  session_of w chat !! "customization_state" = Some (VStr "selecting_style").

(** The world after one more event. *)
Definition log (w : World) (e : event) : World :=
  {| user_data := user_data w; db := db w; trace := (trace w ++ [e])%list |}.

(** What [handle_successful_payment] tells the user when the reported
    status is not the success status. *)
Definition refusal_message (st : value) (expected : string) : reply :=
  if is_str st "error" then MsgPaymentError
  else if is_str st "expired" then MsgInvoiceExpired
  else if is_str st "canceled" then MsgPaymentCanceled
  else MsgPaymentNotCompleted (status_text st) expected.

(** The same payment callback handled again and again, the collaborators
    answering each time as they please. *)
Fixpoint replay (handle : Collab -> Z -> string -> M bool)
    (answers : list Collab) (chat : Z) (pid : string) (w : World) : World :=
  match answers with
  | [] => w
  | C :: rest => replay handle rest chat pid (snd (handle C chat pid w))
  end.

(** The world after [n] credits were added to the balance of [chat]. *)
Definition credited (w : World) (chat : Z) (n : Z) : World :=
  {| user_data := user_data w;
     db := update_user_credits chat (balance w chat + n) (db w);
     trace := trace w |}.

(** Events that are not the invocation of another handler. *)
Definition not_a_call (e : event) : Prop :=
  match e with
  | Call _ _ => False
  | _ => True
  end.

(** [emits_only P m]: the computation only appends to the trace, and only
    events satisfying [P]; [emits_first e P m]: the first of them is [e]. *)
Definition emits_only {A} (P : event -> Prop) (m : M A) : Prop :=
  forall w, exists l, trace (snd (m w)) = (trace w ++ l)%list /\ Forall P l.

Definition emits_first {A} (e : event) (P : event -> Prop) (m : M A) : Prop :=
  forall w, exists l, trace (snd (m w)) = (trace w ++ e :: l)%list /\ Forall P l.

(** The photo [img] is the stored image of the chat. *)
Definition image_stored (chat : Z) (img : bytes) (w : World) : Prop :=
  session_of w chat !! "image_data" = Some (VBytes img).

(** ** Concrete worlds and collaborators used in examples *)

Definition empty_db : Database := {| users := ∅; transactions := ∅ |}.

Definition empty_world : World :=
  {| user_data := ∅; db := empty_db; trace := [] |}.

(** A world with one chat and one account. *)
Definition world_of (chat : Z) (d : session) (credits : Z) : World :=
  {| user_data := {[ chat := d ]};
     db := {| users := {[ chat := credits ]}; transactions := ∅ |};
     trace := [] |}.

Definition text_message (chat : Z) (text : string) : message :=
  {| msg_chat := chat; msg_text := text; msg_photo := [];
     msg_video_duration := 0 |}.

Definition video_message (chat : Z) (duration : Z) : message :=
  {| msg_chat := chat; msg_text := ""; msg_photo := [];
     msg_video_duration := duration |}.

Definition photo_message (chat : Z) (file_id : string) : message :=
  {| msg_chat := chat; msg_text := ""; msg_photo := [file_id];
     msg_video_duration := 0 |}.

(** Collaborators that are all unreachable: every call fails. *)
Definition offline : Collab :=
  {| crypto_check_payment_status := fun _ => Raise;
     stripe_check_payment_status := fun _ => Raise;
     stripe_session_retrieve := fun _ => Raise;
     stripe_get_payment_data := fun _ => Raise;
     cb_check_payment_status := fun _ => Raise;
     cb_get_payment_data := fun _ => Raise;
     cb_get_invoice := fun _ => Raise;
     cb_get_credits_by_package_id := fun _ => 0;
     float_of_string := fun _ => None;
     initial_credits := 0;
     download_file := fun _ => Raise;
     analyze_face_shape := fun _ => Raise;
     detect_landmarks := fun _ => Raise;
     reanalyze_landmarks := fun _ => Raise;
     get_available_hairstyles := fun _ _ => Raise;
     apply_hairstyle := fun _ _ _ _ _ => Raise;
     symmetry_analysis := fun _ => Raise;
     get_recommendations := fun _ => Raise;
     face_shape_criteria := fun _ => None |}.

(** A chat in the middle of the hairstyle flow: the colour has just been
    typed in and everything [generate_hairstyle] needs is stored. *)
Definition styling_session : session :=
  {[ "waiting_for_hairstyle_selection" := VBool true;
     "customization_state" := VStr "input_color_length";
     "selected_hairstyle_index" := VInt 0;
     "selected_hairstyle_name" := VStr "Bob";
     "hairstyle_objects" :=
       VHairstyles [ {| h_name := Some "Bob"; h_style := Some "bob hair";
                        h_lengths := []; h_textures := [] |} ];
     "image_data" := VBytes [Byte.x01];
     "face_shape" := VStr "oval";
     "landmarks" := VLandmarks [(1, 1)] ]}.

(** The generation service answers, but with no image. *)
Definition failing_generation : Collab :=
  {| crypto_check_payment_status := crypto_check_payment_status offline;
     stripe_check_payment_status := stripe_check_payment_status offline;
     stripe_session_retrieve := stripe_session_retrieve offline;
     stripe_get_payment_data := stripe_get_payment_data offline;
     cb_check_payment_status := cb_check_payment_status offline;
     cb_get_payment_data := cb_get_payment_data offline;
     cb_get_invoice := cb_get_invoice offline;
     cb_get_credits_by_package_id := cb_get_credits_by_package_id offline;
     float_of_string := float_of_string offline;
     initial_credits := 0;
     download_file := download_file offline;
     analyze_face_shape := analyze_face_shape offline;
     detect_landmarks := detect_landmarks offline;
     reanalyze_landmarks := reanalyze_landmarks offline;
     get_available_hairstyles := fun _ _ => Ret [];
     apply_hairstyle := fun _ _ _ _ _ => Ret None;
     symmetry_analysis := symmetry_analysis offline;
     get_recommendations := get_recommendations offline;
     face_shape_criteria := face_shape_criteria offline |}.

(** Stripe reports the session as canceled and has no payment data. *)
Definition stripe_unconfirmed : Collab :=
  {| crypto_check_payment_status := crypto_check_payment_status offline;
     stripe_check_payment_status := fun _ => Ret (VStr "canceled");
     stripe_session_retrieve := stripe_session_retrieve offline;
     stripe_get_payment_data := fun _ => Ret None;
     cb_check_payment_status := cb_check_payment_status offline;
     cb_get_payment_data := cb_get_payment_data offline;
     cb_get_invoice := cb_get_invoice offline;
     cb_get_credits_by_package_id := cb_get_credits_by_package_id offline;
     float_of_string := float_of_string offline;
     initial_credits := 0;
     download_file := download_file offline;
     analyze_face_shape := analyze_face_shape offline;
     detect_landmarks := detect_landmarks offline;
     reanalyze_landmarks := reanalyze_landmarks offline;
     get_available_hairstyles := get_available_hairstyles offline;
     apply_hairstyle := apply_hairstyle offline;
     symmetry_analysis := symmetry_analysis offline;
     get_recommendations := get_recommendations offline;
     face_shape_criteria := face_shape_criteria offline |}.

(** Crypto Bot reports the invoice as paid. *)
Definition crypto_bot_paid : Collab :=
  {| crypto_check_payment_status := crypto_check_payment_status offline;
     stripe_check_payment_status := stripe_check_payment_status offline;
     stripe_session_retrieve := stripe_session_retrieve offline;
     stripe_get_payment_data := stripe_get_payment_data offline;
     cb_check_payment_status := fun _ => Ret (VStr "paid");
     cb_get_payment_data := fun _ => Ret None;
     cb_get_invoice := cb_get_invoice offline;
     cb_get_credits_by_package_id := cb_get_credits_by_package_id offline;
     float_of_string := float_of_string offline;
     initial_credits := 0;
     download_file := download_file offline;
     analyze_face_shape := analyze_face_shape offline;
     detect_landmarks := detect_landmarks offline;
     reanalyze_landmarks := reanalyze_landmarks offline;
     get_available_hairstyles := get_available_hairstyles offline;
     apply_hairstyle := apply_hairstyle offline;
     symmetry_analysis := symmetry_analysis offline;
     get_recommendations := get_recommendations offline;
     face_shape_criteria := face_shape_criteria offline |}.

(** User 7 has 10 credits and the invoice ["INV1"] is already completed. *)
Definition paid_world : World :=
  {| user_data := ∅;
     db := {| users := {[ 7 := 10 ]};
              transactions :=
                {[ "INV1" := {| t_user := 7; t_amount := 500;
                                t_credits := 10; t_status := Completed |} ]} |};
     trace := [] |}.

(** The vision collaborators find an oval face in every photo. *)
Definition vision_ok : Collab :=
  {| crypto_check_payment_status := crypto_check_payment_status offline;
     stripe_check_payment_status := stripe_check_payment_status offline;
     stripe_session_retrieve := stripe_session_retrieve offline;
     stripe_get_payment_data := stripe_get_payment_data offline;
     cb_check_payment_status := cb_check_payment_status offline;
     cb_get_payment_data := cb_get_payment_data offline;
     cb_get_invoice := cb_get_invoice offline;
     cb_get_credits_by_package_id := cb_get_credits_by_package_id offline;
     float_of_string := float_of_string offline;
     initial_credits := 0;
     download_file := fun _ => Ret [Byte.x01];
     analyze_face_shape := fun _ => Ret (Some "oval", [Byte.x02], [("ratio", 150)]);
     detect_landmarks := fun _ => Ret (Some [(1, 1)]);
     reanalyze_landmarks := reanalyze_landmarks offline;
     get_available_hairstyles := get_available_hairstyles offline;
     apply_hairstyle := apply_hairstyle offline;
     symmetry_analysis := symmetry_analysis offline;
     get_recommendations := fun _ => Ret ("Oval", ["Bob"]);
     face_shape_criteria := face_shape_criteria offline |}.

(** A chat that sent [/start] while the background flow was waiting for
    its prompt. *)
Definition world_after_start : World :=
  snd (start offline (text_message 7 "/start")
         (world_of 7 {[ "current_feature" := VStr "5";
                        "image_data" := VBytes [Byte.x09];
                        "waiting_for_background_prompt" := VBool true ]} 0)).

(** A chat that was asked to pick a credit package. *)
Definition package_selection_world : World :=
  world_of 42 {[ "waiting_for_package_selection" := VBool true;
                 "selected_payment_method" := VStr "crypto" ]} 0.

(** ** Further commands and the purchase flow

    The handlers below also read and set the [stripe_integration_active]
    attribute of the Stripe module and send texts of their own; they run
    over a [Desk]: the world, that attribute, and the texts sent. *)

(** The texts of these handlers; templates of [config.py] appear with the
    arguments they are formatted with. *)
Inductive notice :=
| NoticeResetDone
| NoticeBuyCreditsCrypto
| NoticeBuyCredits
| NoticeChoosePaymentMethod
| NoticeMethodsCryptoOnly
| NoticeMethodsBoth
| NoticeChoosePackage
| NoticeChooseMethodOne
| NoticeChooseMethodOneOrTwo
| NoticeSelectPackageAgain
| NoticePaymentCreated (template : string) (credits amount : Z) (url : string)
| NoticePaymentError.

(** What a payment module returns for a created payment: the id under
    which the provider knows it and the link to pay. *)
Record payment_info := { pi_payment_id : string; pi_payment_url : string }.

(** The payment modules as the purchase flow uses them. *)
Record Shop := {
  cb_get_credit_packages : list package;
  stripe_get_credit_packages : list package;
  stripe_credit_packages : list package;
  stripe_api_key : option string;
  (* amount, package id, telegram id *)
  cb_create_payment : Z -> string -> Z -> outcome (option payment_info);
  (* amount, package id, telegram id, credits named in the title *)
  stripe_create_payment :
    Z -> string -> Z -> Z -> outcome (option payment_info)
}.

Record Desk := {
  world : World;
  stripe_integration_active : bool;
  notices : list (Z * notice)
}.

Definition N (A : Type) : Type := Desk -> outcome A * Desk.

Definition nret {A} (a : A) : N A := fun s => (Ret a, s).

Definition nraise {A} : N A := fun s => (Raise, s).

Definition nbind {A B} (m : N A) (k : A -> N B) : N B :=
  fun s => match m s with
           | (Ret a, s') => k a s'
           | (Raise, s') => (Raise, s')
           end.

Definition ntry {A} (m : N A) (h : N A) : N A :=
  fun s => match m s with
           | (Ret a, s') => (Ret a, s')
           | (Raise, s') => h s'
           end.

Notation "x <~ m ;; k" := (nbind m (fun x => k))
  (at level 100, m at next level, right associativity) : bot_scope.
Notation "m ~;; k" := (nbind m (fun _ => k))
  (at level 100, right associativity) : bot_scope.

(** A handler step on the world alone. *)
Definition lift {A} (m : M A) : N A :=
  fun s => let r := m (world s) in
           (fst r, {| world := snd r;
                      stripe_integration_active := stripe_integration_active s;
                      notices := notices s |}).

(** [safe_send_message] / [self.bot.send_message] with one of the texts
    above. *)
Definition notify (chat : Z) (n : notice) : N unit :=
  fun s => (Ret tt, {| world := world s;
                       stripe_integration_active := stripe_integration_active s;
                       notices := notices s ++ [(chat, n)] |}).

(** [getattr(self.stripe_payment, 'stripe_integration_active', False)]. *)
Definition get_stripe_active : N bool :=
  fun s => (Ret (stripe_integration_active s), s).

(** [setattr(self.stripe_payment, 'stripe_integration_active', True)]. *)
Definition activate_stripe : N unit :=
  fun s => (Ret tt, {| world := world s; stripe_integration_active := true;
                       notices := notices s |}).

(** [reset_command]. *)
Definition reset_command (msg : message) : N unit :=
  let chat_id := msg_chat msg in
  (u <~ lift read_sessions ;;
   lift (write_sessions (delete chat_id u))) ~;;
  notify chat_id NoticeResetDone.

(** [buy_credits_command]. *)
Definition buy_credits_command (C : Collab) (msg : message) : N unit :=
  let chat_id := msg_chat msg in
  (d <~ lift read_db ;;
   lift (write_db (get_or_create_user (initial_credits C) chat_id d))) ~;;
  lift (init_session chat_id) ~;;
  lift (session_set chat_id "current_feature" VNone) ~;;
  stripe_active <~ get_stripe_active ;;
  if negb stripe_active
  then
    lift (session_set chat_id "selected_payment_method" (VStr "crypto")) ~;;
    lift (session_set chat_id "waiting_for_package_selection" (VBool true)) ~;;
    notify chat_id NoticeBuyCreditsCrypto
  else
    lift (session_set chat_id "waiting_for_payment_method" (VBool true)) ~;;
    notify chat_id NoticeChoosePaymentMethod.

(** [handle_payment_method_selection]. *)
Definition handle_payment_method_selection (msg : message) : N unit :=
  let chat_id := msg_chat msg in
  let payment_input := msg_text msg in
  if String.eqb payment_input "" then nret tt
  else
    stripe_active <~ get_stripe_active ;;
    if (stripe_active &&
        (String.eqb payment_input "1" || String.eqb payment_input "2")) ||
       (negb stripe_active && String.eqb payment_input "1")
    then
      let payment_method :=
        if String.eqb payment_input "1" then "crypto" else "card" in
      lift (session_set chat_id "waiting_for_payment_method" (VBool false)) ~;;
      lift (session_set chat_id "selected_payment_method"
              (VStr payment_method)) ~;;
      lift (session_set chat_id "waiting_for_package_selection"
              (VBool true)) ~;;
      if String.eqb payment_method "crypto"
      then notify chat_id NoticeBuyCreditsCrypto
      else notify chat_id NoticeBuyCredits
    else
      if stripe_active
      then notify chat_id NoticeChooseMethodOneOrTwo
      else notify chat_id NoticeChooseMethodOne.

(** [int(s)] for a string of decimal digits. *)
Definition int_of_digits (s : string) : Z :=
  fold_left (fun acc c => 10 * acc + (Z.of_nat (nat_of_ascii c) - 48))
            (list_ascii_of_string s) 0.

(** The replacement of a crypto package by the Stripe package of the same
    tier when the payment is made by card. *)
Definition card_package (S : Shop) (p : package) : option package :=
  if startswith (p_id p) "basic_crypto" ||
     startswith (p_id p) "standard_crypto" ||
     startswith (p_id p) "premium_crypto"
  then
    if String.eqb (p_id p) "basic_crypto" then stripe_credit_packages S !! 0%nat
    else if String.eqb (p_id p) "standard_crypto"
    then stripe_credit_packages S !! 1%nat
    else if String.eqb (p_id p) "premium_crypto"
    then stripe_credit_packages S !! 2%nat
    else Some p
  else Some p.

(** The message template of a card payment: the test variant when the API
    key is a test key. *)
Definition card_template (S : Shop) : string :=
  match stripe_api_key S with
  | Some key =>
      if negb (String.eqb key "") && startswith key "sk_test_"
      then "payment_created_card_test"
      else "payment_created_card"
  | None => "payment_created_card"
  end.

(** [_create_payment]. *)
Definition _create_payment (S : Shop) (chat_id : Z) (payment_method : value)
    : N bool :=
  ntry
    (d <~ lift (the_session chat_id) ;;
     let selected_package := dict_get d "selected_package" in
     if negb (truthy selected_package)
     then notify chat_id NoticeSelectPackageAgain ~;; nret false
     else
       match selected_package with
       | VPackage p =>
           created <~
             (if is_str payment_method "crypto"
              then
                payment_info <~
                  lift (ask (cb_create_payment S (p_price p) (p_id p) chat_id)) ;;
                nret (p, payment_info, "payment_created")
              else
                match card_package S p with
                | None => nraise
                | Some p' =>
                    payment_info <~
                      lift (ask (stripe_create_payment S (p_price p') (p_id p')
                                   chat_id (p_credits p'))) ;;
                    nret (p', payment_info, card_template S)
                end) ;;
           let '(package, payment_info, template) := created in
           match payment_info with
           | Some info =>
               d0 <~ lift read_db ;;
               lift (write_db (create_transaction chat_id (p_price package)
                                 (p_credits package) (pi_payment_id info) d0)) ~;;
               notify chat_id
                 (NoticePaymentCreated template (p_credits package)
                    (p_price package) (pi_payment_url info)) ~;;
               nret true
           | None => notify chat_id NoticePaymentError ~;; nret false
           end
       | _ => nraise
       end)
    (notify chat_id NoticePaymentError ~;; nret false).

(** [handle_package_selection]. *)
Definition handle_package_selection (S : Shop) (msg : message) : N unit :=
  let chat_id := msg_chat msg in
  if isdigit (msg_text msg)
  then
    let package_index := int_of_digits (msg_text msg) - 1 in
    d <~ lift (the_session chat_id) ;;
    let payment_method := dict_get d "selected_payment_method" in
    let credit_packages :=
      if is_str payment_method "crypto"
      then cb_get_credit_packages S
      else stripe_get_credit_packages S in
    if (0 <=? package_index) &&
       (package_index <? Z.of_nat (length credit_packages))
    then
      match credit_packages !! Z.to_nat package_index with
      | None => nraise
      | Some selected_package =>
          lift (session_set chat_id "selected_package"
                  (VPackage selected_package)) ~;;
          lift (session_set chat_id "waiting_for_package_selection"
                  (VBool false)) ~;;
          if truthy payment_method
          then _create_payment S chat_id payment_method ~;; nret tt
          else
            lift (session_set chat_id "waiting_for_payment_method"
                    (VBool true)) ~;;
            active_flag <~ get_stripe_active ;;
            let has_api_key :=
              match stripe_api_key S with Some _ => true | None => false end in
            active_flag <~
              (if has_api_key && negb active_flag
               then activate_stripe ~;; nret true
               else nret active_flag) ;;
            if negb active_flag
            then notify chat_id NoticeMethodsCryptoOnly
            else notify chat_id NoticeMethodsBoth
      end
    else notify chat_id NoticeChoosePackage
  else notify chat_id NoticeChoosePackage.

(** ** Vocabulary of the further properties *)

(** Two sets of collaborators that agree on what the Stripe return link
    uses. *)
Definition same_stripe (C1 C2 : Collab) : Prop :=
  stripe_check_payment_status C1 = stripe_check_payment_status C2 /\
  stripe_get_payment_data C1 = stripe_get_payment_data C2 /\
  initial_credits C1 = initial_credits C2.

(** The only way [generate_hairstyle] touches the ledger: not at all, or by
    the one charge of two credits, and then the picture is the last thing
    it sent and it returned. *)
Definition charged_for_photo (chat : Z) (d0 : Database)
    (r : outcome unit * World) : Prop :=
  db (snd r) = d0 \/
  (fst r = Ret tt /\ db (snd r) = snd (use_credit chat 2 d0) /\
   exists img m, last (trace (snd r)) = Some (SendPhoto chat img m)).

(** The transaction of a payment id is completed. *)
Definition completed_in (d : Database) (pid : string) : Prop :=
  exists t, transactions d !! pid = Some t /\ t_status t = Completed.

(** [float(v)] succeeds. *)
Definition floatable (C : Collab) (v : value) : Prop :=
  match v with
  | VInt _ | VBool _ => True
  | VStr s => is_Some (float_of_string C s)
  | _ => False
  end.

(** The desk after one more text was sent. *)
Definition noted (s : Desk) (chat : Z) (n : notice) : Desk :=
  {| world := world s;
     stripe_integration_active := stripe_integration_active s;
     notices := (notices s ++ [(chat, n)])%list |}.

(** The desk around another world. *)
Definition with_world (s : Desk) (w : World) : Desk :=
  {| world := w;
     stripe_integration_active := stripe_integration_active s;
     notices := notices s |}.

(** The world with the session of a chat replaced. *)
Definition with_session (w : World) (chat : Z) (d : session) : World :=
  {| user_data := <[chat := d]> (user_data w); db := db w; trace := trace w |}.

(** The answers [handle_payment_method_selection] accepts: 1 always, 2 when
    the Stripe integration is active. *)
Definition valid_method_choice (active : bool) (text : string) : bool :=
  String.eqb text "1" || (active && String.eqb text "2").

(** The session [buy_credits_command] leaves: the feature is cleared, and
    either the method is asked for or, without Stripe, the method is crypto
    and the package is asked for. *)
Definition purchase_session (active : bool) (d : session) : session :=
  if active
  then <["waiting_for_payment_method" := VBool true]>
         (<["current_feature" := VNone]> d)
  else <["waiting_for_package_selection" := VBool true]>
         (<["selected_payment_method" := VStr "crypto"]>
            (<["current_feature" := VNone]> d)).

(** ** Further example worlds *)

(** The symmetry service finds a face in every photo and scores it. *)
Definition symmetry_ok : Collab :=
  {| crypto_check_payment_status := crypto_check_payment_status offline;
     stripe_check_payment_status := stripe_check_payment_status offline;
     stripe_session_retrieve := stripe_session_retrieve offline;
     stripe_get_payment_data := stripe_get_payment_data offline;
     cb_check_payment_status := cb_check_payment_status offline;
     cb_get_payment_data := cb_get_payment_data offline;
     cb_get_invoice := cb_get_invoice offline;
     cb_get_credits_by_package_id := cb_get_credits_by_package_id offline;
     float_of_string := float_of_string offline;
     initial_credits := 0;
     download_file := fun _ => Ret [Byte.x01];
     analyze_face_shape := analyze_face_shape offline;
     detect_landmarks := detect_landmarks offline;
     reanalyze_landmarks := reanalyze_landmarks offline;
     get_available_hairstyles := get_available_hairstyles offline;
     apply_hairstyle := apply_hairstyle offline;
     symmetry_analysis := fun _ => Ret (SymDone [Byte.x03] 87);
     get_recommendations := get_recommendations offline;
     face_shape_criteria := face_shape_criteria offline |}.

(** The generation service returns a picture. *)
Definition generation_ok : Collab :=
  {| crypto_check_payment_status := crypto_check_payment_status offline;
     stripe_check_payment_status := stripe_check_payment_status offline;
     stripe_session_retrieve := stripe_session_retrieve offline;
     stripe_get_payment_data := stripe_get_payment_data offline;
     cb_check_payment_status := cb_check_payment_status offline;
     cb_get_payment_data := cb_get_payment_data offline;
     cb_get_invoice := cb_get_invoice offline;
     cb_get_credits_by_package_id := cb_get_credits_by_package_id offline;
     float_of_string := float_of_string offline;
     initial_credits := 0;
     download_file := download_file offline;
     analyze_face_shape := analyze_face_shape offline;
     detect_landmarks := detect_landmarks offline;
     reanalyze_landmarks := reanalyze_landmarks offline;
     get_available_hairstyles := fun _ _ => Ret [];
     apply_hairstyle := fun _ _ _ _ _ => Ret (Some [Byte.x05]);
     symmetry_analysis := symmetry_analysis offline;
     get_recommendations := get_recommendations offline;
     face_shape_criteria := face_shape_criteria offline |}.

(** Stripe has the payment data of every session: a purchase of five
    credits. *)
Definition stripe_paid : Collab :=
  {| crypto_check_payment_status := crypto_check_payment_status offline;
     stripe_check_payment_status := fun _ => Ret (VStr "completed");
     stripe_session_retrieve := stripe_session_retrieve offline;
     stripe_get_payment_data := fun _ => Ret (Some {[ "credits" := VInt 5 ]});
     cb_check_payment_status := cb_check_payment_status offline;
     cb_get_payment_data := cb_get_payment_data offline;
     cb_get_invoice := cb_get_invoice offline;
     cb_get_credits_by_package_id := cb_get_credits_by_package_id offline;
     float_of_string := float_of_string offline;
     initial_credits := 0;
     download_file := download_file offline;
     analyze_face_shape := analyze_face_shape offline;
     detect_landmarks := detect_landmarks offline;
     reanalyze_landmarks := reanalyze_landmarks offline;
     get_available_hairstyles := get_available_hairstyles offline;
     apply_hairstyle := apply_hairstyle offline;
     symmetry_analysis := symmetry_analysis offline;
     get_recommendations := get_recommendations offline;
     face_shape_criteria := face_shape_criteria offline |}.

(** User 7 has 10 credits and one transaction, ["cs_1"] for five credits,
    in the given status. *)
Definition ledger_world (status : tx_status) : World :=
  {| user_data := ∅;
     db := {| users := {[ 7 := 10 ]};
              transactions :=
                {[ "cs_1" := {| t_user := 7; t_amount := 500;
                                t_credits := 5; t_status := status |} ]} |};
     trace := [] |}.

(** Payment modules with three packages each; every payment is created. *)
Definition shop : Shop :=
  {| cb_get_credit_packages :=
       [ {| p_id := "basic_crypto"; p_price := 500; p_credits := 5 |};
         {| p_id := "standard_crypto"; p_price := 1000; p_credits := 12 |};
         {| p_id := "premium_crypto"; p_price := 2000; p_credits := 30 |} ];
     stripe_get_credit_packages :=
       [ {| p_id := "basic"; p_price := 300; p_credits := 5 |};
         {| p_id := "standard"; p_price := 700; p_credits := 12 |};
         {| p_id := "premium"; p_price := 1500; p_credits := 30 |} ];
     stripe_credit_packages :=
       [ {| p_id := "basic"; p_price := 300; p_credits := 5 |};
         {| p_id := "standard"; p_price := 700; p_credits := 12 |};
         {| p_id := "premium"; p_price := 1500; p_credits := 30 |} ];
     stripe_api_key := Some "sk_test_1";
     cb_create_payment := fun _ _ _ =>
       Ret (Some {| pi_payment_id := "INV2"; pi_payment_url := "pay/INV2" |});
     stripe_create_payment := fun _ _ _ _ =>
       Ret (Some {| pi_payment_id := "cs_2"; pi_payment_url := "pay/cs_2" |})
  |}.

(** A desk that has sent nothing yet. *)
Definition desk_of (w : World) (active : bool) : Desk :=
  {| world := w; stripe_integration_active := active; notices := [] |}.

(** * Properties *)

(** ** The reset operation *)

Lemma clear_flag_lookup (d : session) (flag key : string) :
  clear_flag d flag !! key =
  if decide (flag = key) then (fun _ => VBool false) <$> d !! key else d !! key.
Proof.
  unfold clear_flag. destruct (decide (flag = key)) as [->|Hne].
  - destruct (d !! key) eqn:E.
    + by rewrite lookup_insert_eq.
    + by rewrite E.
  - destruct (d !! flag); [by rewrite lookup_insert_ne|done].
Qed.

Lemma clear_flags_lookup (flags : list string) (d : session) (key : string) :
  foldl clear_flag d flags !! key =
  if bool_decide (key ∈ flags) then (fun _ => VBool false) <$> d !! key
  else d !! key.
Proof.
  revert d. induction flags as [|f flags IH]; intros d; simpl.
  - done.
  - rewrite IH, clear_flag_lookup.
    destruct (decide (f = key)) as [->|Hne].
    + rewrite (bool_decide_eq_true_2 (key ∈ key :: flags)) by (apply elem_of_cons; by left).
      case_bool_decide; [|done]. by destruct (d !! key).
    + case_bool_decide as Hin.
      * rewrite bool_decide_eq_true_2 by (apply elem_of_cons; by right). done.
      * rewrite bool_decide_eq_false_2; [done|].
        intros [?|?]%elem_of_cons; congruence.
Qed.

Lemma reset_session_lookup (d : session) (key : string) :
  reset_session d !! key =
  if decide (key = "current_feature") then (fun _ => VNone) <$> d !! key
  else if bool_decide (key ∈ waiting_flags)
       then (fun _ => VBool false) <$> d !! key
       else d !! key.
Proof.
  unfold reset_session.
  assert (Hcf : foldl clear_flag d waiting_flags !! "current_feature"
                = d !! "current_feature").
  { rewrite clear_flags_lookup. rewrite bool_decide_eq_false_2; [done|].
    unfold waiting_flags. intros Hin.
    repeat (apply elem_of_cons in Hin as [Hin|Hin]; [discriminate|]).
    by apply elem_of_nil in Hin. }
  rewrite Hcf.
  destruct (decide (key = "current_feature")) as [->|Hne].
  - destruct (d !! "current_feature") eqn:E.
    + by rewrite lookup_insert_eq.
    + by rewrite Hcf.
  - destruct (d !! "current_feature").
    + rewrite lookup_insert_ne by done. apply clear_flags_lookup.
    + apply clear_flags_lookup.
Qed.

Lemma reset_world (chat : Z) (w : World) :
  _reset_all_waiting_states chat w =
  (Ret tt,
   {| user_data :=
        <[chat := match user_data w !! chat with
                  | Some d => reset_session d
                  | None => ∅
                  end]> (user_data w);
      db := db w; trace := trace w |}).
Proof.
  unfold _reset_all_waiting_states, bind, read_sessions, write_sessions.
  simpl. by destruct (user_data w !! chat).
Qed.

Lemma reset_session_of (chat : Z) (w : World) :
  session_of (snd (_reset_all_waiting_states chat w)) chat =
  reset_session (session_of w chat).
Proof.
  rewrite reset_world. unfold session_of. simpl. rewrite lookup_insert_eq.
  destruct (user_data w !! chat); simpl; [done|].
  apply map_eq. intros k. rewrite reset_session_lookup, lookup_empty.
  by repeat case_match.
Qed.

(** After the reset none of the eight listed flags is set. *)
Lemma reset_session_flags (d : session) :
  Forall (fun flag => truthy (dict_get (reset_session d) flag) = false)
         waiting_flags.
Proof.
  apply Forall_forall. intros flag Hin. unfold dict_get.
  rewrite reset_session_lookup.
  destruct (decide (flag = "current_feature")) as [->|_].
  - by destruct (d !! "current_feature").
  - rewrite bool_decide_eq_true_2 by done. by destruct (d !! flag).
Qed.

Lemma reset_session_current_feature (d : session) :
  dict_get (reset_session d) "current_feature" = VNone.
Proof.
  unfold dict_get. rewrite reset_session_lookup. simpl.
  by destruct (d !! "current_feature").
Qed.

Lemma reset_session_other (d : session) (key : string) :
  key ∉ "current_feature" :: waiting_flags →
  reset_session d !! key = d !! key.
Proof.
  intros [Hcf Hflags]%not_elem_of_cons. rewrite reset_session_lookup.
  destruct (decide (key = "current_feature")) as [->|_]; [done|].
  by rewrite bool_decide_eq_false_2.
Qed.

(** ** Frame conditions of the monad *)

Create HintDb frame.

Section Frame.
Context {A B : Type}.

Lemma keeps_sessions_ret (a : A) : keeps_sessions (ret a).
Proof. by intros w. Qed.

Lemma keeps_sessions_raise : keeps_sessions (@raise A).
Proof. by intros w. Qed.

Lemma keeps_sessions_ask (o : outcome A) : keeps_sessions (ask o).
Proof. by intros w. Qed.

Lemma keeps_sessions_bind (m : M A) (k : A -> M B) :
  keeps_sessions m -> (forall a, keeps_sessions (k a)) ->
  keeps_sessions (bind m k).
Proof.
  intros Hm Hk w. unfold bind. specialize (Hm w).
  destruct (m w) as [[a|] w']; simpl in *; [|done].
  by rewrite Hk.
Qed.

Lemma keeps_sessions_try (m h : M A) :
  keeps_sessions m -> keeps_sessions h -> keeps_sessions (try_except m h).
Proof.
  intros Hm Hh w. unfold try_except. specialize (Hm w).
  destruct (m w) as [[a|] w']; simpl in *; [done|].
  by rewrite Hh.
Qed.

Lemma keeps_db_ret (a : A) : keeps_db (ret a).
Proof. by intros w. Qed.

Lemma keeps_db_raise : keeps_db (@raise A).
Proof. by intros w. Qed.

Lemma keeps_db_ask (o : outcome A) : keeps_db (ask o).
Proof. by intros w. Qed.

Lemma keeps_db_bind (m : M A) (k : A -> M B) :
  keeps_db m -> (forall a, keeps_db (k a)) -> keeps_db (bind m k).
Proof.
  intros Hm Hk w. unfold bind. specialize (Hm w).
  destruct (m w) as [[a|] w']; simpl in *; [|done].
  by rewrite Hk.
Qed.

Lemma keeps_db_try (m h : M A) :
  keeps_db m -> keeps_db h -> keeps_db (try_except m h).
Proof.
  intros Hm Hh w. unfold try_except. specialize (Hm w).
  destruct (m w) as [[a|] w']; simpl in *; [done|].
  by rewrite Hh.
Qed.
End Frame.

Lemma keeps_sessions_emit (e : event) : keeps_sessions (emit e).
Proof. by intros w. Qed.

Lemma keeps_sessions_read_db : keeps_sessions read_db.
Proof. by intros w. Qed.

Lemma keeps_sessions_write_db (d : Database) : keeps_sessions (write_db d).
Proof. by intros w. Qed.

Lemma keeps_sessions_read_sessions : keeps_sessions read_sessions.
Proof. by intros w. Qed.

Lemma keeps_db_emit (e : event) : keeps_db (emit e).
Proof. by intros w. Qed.

Lemma keeps_db_read_db : keeps_db read_db.
Proof. by intros w. Qed.

Lemma keeps_db_read_sessions : keeps_db read_sessions.
Proof. by intros w. Qed.

Lemma keeps_db_write_sessions (u : gmap Z session) : keeps_db (write_sessions u).
Proof. by intros w. Qed.

#[export] Hint Resolve keeps_sessions_ret keeps_sessions_raise
  keeps_sessions_ask keeps_sessions_emit keeps_sessions_read_db
  keeps_sessions_write_db keeps_sessions_read_sessions
  keeps_db_ret keeps_db_raise keeps_db_ask keeps_db_emit keeps_db_read_db
  keeps_db_read_sessions keeps_db_write_sessions : frame.

(** One step of a frame proof: a primitive, a sequencing operator, or a
    case distinction of the handler. *)
Ltac frame_step :=
  match goal with
  | |- keeps_sessions (bind _ _) => apply keeps_sessions_bind; [|intros ?]
  | |- keeps_sessions (try_except _ _) => apply keeps_sessions_try
  | |- keeps_db (bind _ _) => apply keeps_db_bind; [|intros ?]
  | |- keeps_db (try_except _ _) => apply keeps_db_try
  | |- keeps_sessions (match ?x with _ => _ end) => destruct x
  | |- keeps_db (match ?x with _ => _ end) => destruct x
  | |- _ => solve [auto with frame]
  end.

Ltac frame := repeat frame_step.

Lemma keeps_sessions_send (chat : Z) (m : reply) :
  keeps_sessions (send_message chat m).
Proof. apply keeps_sessions_emit. Qed.

Lemma keeps_sessions_safe_send (chat : Z) (m : reply) :
  keeps_sessions (safe_send_message chat m).
Proof. apply keeps_sessions_emit. Qed.

Lemma keeps_db_send (chat : Z) (m : reply) : keeps_db (send_message chat m).
Proof. apply keeps_db_emit. Qed.

Lemma keeps_db_send_photo (chat : Z) (img : bytes) (m : reply) :
  keeps_db (send_photo chat img m).
Proof. apply keeps_db_emit. Qed.

Lemma keeps_db_invoke (h : handler) (chat : Z) : keeps_db (invoke h chat).
Proof. apply keeps_db_emit. Qed.

Lemma keeps_db_the_session (chat : Z) : keeps_db (the_session chat).
Proof. unfold the_session. frame. Qed.

Lemma keeps_db_session_set (chat : Z) (key : string) (v : value) :
  keeps_db (session_set chat key v).
Proof. unfold session_set, the_session. frame. Qed.

Lemma keeps_db_session_index (chat : Z) (key : string) :
  keeps_db (session_index chat key).
Proof. unfold session_index, the_session. frame. Qed.

Lemma keeps_db_init_session (chat : Z) : keeps_db (init_session chat).
Proof. unfold init_session. frame. Qed.

Lemma keeps_db_reset (chat : Z) : keeps_db (_reset_all_waiting_states chat).
Proof. unfold _reset_all_waiting_states. frame. Qed.

Lemma keeps_sessions_as_int (v : value) : keeps_sessions (as_int v).
Proof. unfold as_int. frame. Qed.

Lemma keeps_sessions_py_float (C : Collab) (v : value) :
  keeps_sessions (py_float C v).
Proof. unfold py_float. frame. Qed.

#[export] Hint Resolve keeps_sessions_send keeps_sessions_safe_send
  keeps_db_send keeps_db_send_photo keeps_db_invoke keeps_db_the_session
  keeps_db_session_set keeps_db_session_index keeps_db_init_session
  keeps_db_reset keeps_sessions_as_int keeps_sessions_py_float : frame.

Lemma keeps_sessions_add_credits (chat : Z) (v : value) :
  keeps_sessions (add_credits chat v).
Proof. unfold add_credits. frame. Qed.

Lemma keeps_sessions_check_provider (C : Collab) (pid : string) :
  keeps_sessions (check_provider C pid).
Proof. unfold check_provider. frame. Qed.

#[export] Hint Resolve keeps_sessions_add_credits
  keeps_sessions_check_provider : frame.

Lemma keeps_sessions_invoice_metadata (inv : session) :
  keeps_sessions (invoice_metadata inv).
Proof. unfold invoice_metadata. frame. Qed.

#[export] Hint Resolve keeps_sessions_invoice_metadata : frame.

Lemma keeps_sessions_reconstruct (C : Collab) (chat : Z) (pid : string)
    (pd : option session) :
  keeps_sessions (reconstruct_transaction C chat pid pd).
Proof. unfold reconstruct_transaction. frame. Qed.

#[export] Hint Resolve keeps_sessions_reconstruct : frame.

Lemma keeps_sessions_handle_successful_payment (C : Collab) (chat : Z)
    (pid : string) :
  keeps_sessions (handle_successful_payment C chat pid).
Proof. unfold handle_successful_payment. frame. Qed.

Lemma keeps_sessions_handle_stripe_payment (C : Collab) (chat : Z)
    (sid : string) :
  keeps_sessions (handle_stripe_payment C chat sid).
Proof. unfold handle_stripe_payment. frame. Qed.

Lemma keeps_sessions_stripe_return (C : Collab) (chat : Z) (sid : string) :
  keeps_sessions (stripe_return C chat sid).
Proof. unfold stripe_return. frame. Qed.

#[export] Hint Resolve keeps_sessions_handle_successful_payment
  keeps_sessions_handle_stripe_payment keeps_sessions_stripe_return : frame.

(** What follows a computation cannot change the sessions if it keeps
    them. *)
Lemma bind_keeps_sessions_after {A B} (m : M A) (k : A -> M B) (w : World) :
  (forall a, keeps_sessions (k a)) ->
  user_data (snd (bind m k w)) = user_data (snd (m w)).
Proof.
  intros Hk. unfold bind. destruct (m w) as [[a|] w']; simpl; [|done].
  apply Hk.
Qed.

(** ** Feature-entry commands and the reset *)




Lemma start_sessions (C : Collab) (msg : message) (w : World) :
  user_data (snd (start C msg w)) =
  user_data (snd (_reset_all_waiting_states (msg_chat msg) w)).
Proof.
  unfold start. apply bind_keeps_sessions_after. intros _.
  destruct (split_ws (msg_text msg)) as [|w0 [|params rest]];
    unfold start_payment_param; frame.
Qed.

Lemma menu_sessions (msg : message) (w : World) :
  user_data (snd (menu_command msg w)) =
  user_data (snd (_reset_all_waiting_states (msg_chat msg) w)).
Proof.
  unfold menu_command. apply bind_keeps_sessions_after. intros _. frame.
Qed.

Lemma start_session (C : Collab) (msg : message) (w : World) :
  session_of (snd (start C msg w)) (msg_chat msg) =
  reset_session (session_of w (msg_chat msg)).
Proof.
  rewrite <- reset_session_of. unfold session_of. by rewrite start_sessions.
Qed.






(** C9: the reset operation changes, in the session of the chat, only the
    eight wait flags and the active-feature marker: every other key -- in
    particular the last face shape, the landmarks and the last uploaded
    image -- keeps its value (or stays absent); the database and the trace
    are not touched, and a stored face shape is still found afterwards by
    the hairstyle try-on. *)
Theorem reset_keeps_long_lived_results (chat : Z) (w : World) (key : string) :
  key ∉ "current_feature" :: waiting_flags ->
  let w' := snd (_reset_all_waiting_states chat w) in
  session_of w' chat !! key = session_of w chat !! key /\
  session_of w' chat !! "face_shape" = session_of w chat !! "face_shape" /\
  session_of w' chat !! "landmarks" = session_of w chat !! "landmarks" /\
  session_of w' chat !! "image_data" = session_of w chat !! "image_data" /\
  dict_has (session_of w' chat) "face_shape" =
    dict_has (session_of w chat) "face_shape" /\
  db w' = db w /\ trace w' = trace w.
Proof.
  intros Hkey w'. subst w'. rewrite reset_session_of.
  assert (Hother : forall k,
            Forall (fun flag => bool_decide (flag = k) = false)
                   ("current_feature" :: waiting_flags) ->
            reset_session (session_of w chat) !! k = session_of w chat !! k).
  { intros k Hk. apply reset_session_other. rewrite Forall_forall in Hk.
    intros Hin. specialize (Hk k Hin). by rewrite bool_decide_eq_true_2 in Hk. }
  repeat split.
  - by apply reset_session_other.
  - apply Hother. by repeat constructor.
  - apply Hother. by repeat constructor.
  - apply Hother. by repeat constructor.
  - unfold dict_has. rewrite Hother; [done|]. by repeat constructor.
  - by rewrite reset_world.
  - by rewrite reset_world.
Qed.

Lemma reset_keeps_long_lived_results_witness :
  let w := world_of 7 {[ "face_shape" := VStr "oval";
                          "waiting_for_text_prompt" := VBool true ]} 0 in
  session_of (snd (_reset_all_waiting_states 7 w)) 7 !! "face_shape" =
  Some (VStr "oval").
Proof.
  intros w.
  destruct (reset_keeps_long_lived_results 7 w "face_shape") as [H _].
  - intros Hin.
    repeat (apply elem_of_cons in Hin as [Hin|Hin]; [discriminate|]).
    by apply elem_of_nil in Hin.
  - rewrite H. reflexivity.
Defined.

(** C10: a video longer than 8 seconds is answered with the too-long
    warning and nothing else happens -- the sessions and the database are
    as before and video processing is not invoked; a video of at most 8
    seconds is handed to video processing. *)
Theorem handle_video_duration_limit (msg : message) (w : World) :
  let r := handle_video msg w in
  fst r = Ret tt /\
  user_data (snd r) = user_data w /\
  db (snd r) = db w /\
  ((8 < msg_video_duration msg /\
    trace (snd r) = (trace w ++ [Send (msg_chat msg) MsgVideoTooLong])%list) \/
   (msg_video_duration msg <= 8 /\
    trace (snd r) = (trace w ++ [Call ProcessVideo (msg_chat msg)])%list)).
Proof.
  unfold handle_video. destruct (8 <? msg_video_duration msg) eqn:E; simpl.
  - apply Z.ltb_lt in E. repeat split; auto.
  - apply Z.ltb_ge in E. repeat split; auto.
Qed.

(** ** Hairstyle try-on: the credit check *)

Lemma session_set_world (chat : Z) (key : string) (v : value) (w : World)
    (d : session) :
  user_data w !! chat = Some d ->
  session_set chat key v w =
  (Ret tt, {| user_data := <[chat := <[key := v]> d]> (user_data w);
              db := db w; trace := trace w |}).
Proof.
  intros H. unfold session_set, the_session, bind, read_sessions,
    write_sessions. simpl. by rewrite H.
Qed.

Lemma session_set_missing (chat : Z) (key : string) (v : value) (w : World) :
  user_data w !! chat = None -> session_set chat key v w = (Raise, w).
Proof.
  intros H. unfold session_set, the_session, bind, read_sessions. simpl.
  by rewrite H.
Qed.

(** C6 (as amended): for a user whose session holds a computed face shape
    and whose balance is below the try-on cost of 2, [/try] answers with the
    insufficient-credit message formatted with the balance and the cost,
    then with the premium information, and stops: no input is collected (the
    sessions are as before) and nothing is charged (the database is as
    before). *)
Theorem try_hairstyle_insufficient_credit (msg : message) (w : World)
    (d : session) :
  user_data w !! msg_chat msg = Some d ->
  is_Some (d !! "face_shape") ->
  balance w (msg_chat msg) < 2 ->
  try_hairstyle_command msg w =
  (Ret tt,
   {| user_data := user_data w; db := db w;
      trace :=
        (trace w ++
         [Send (msg_chat msg)
            (MsgNotEnoughCredits (balance w (msg_chat msg)) 2);
          Send (msg_chat msg) MsgPremiumFeatures])%list |}).
Proof.
  intros Hd Hfs Hbal.
  unfold try_hairstyle_command, bind, read_sessions, read_db. simpl.
  rewrite Hd. unfold dict_has. rewrite bool_decide_eq_true_2 by done. simpl.
  unfold balance in Hbal. apply Z.ltb_lt in Hbal. rewrite Hbal.
  unfold send_message, emit. simpl. by rewrite <- app_assoc.
Qed.

Lemma try_hairstyle_insufficient_credit_witness :
  try_hairstyle_command (text_message 7 "/try")
    (world_of 7 {[ "face_shape" := VStr "oval" ]} 1) =
  (Ret tt,
   {| user_data := {[ 7 := {[ "face_shape" := VStr "oval" ]} ]};
      db := {| users := {[ 7 := 1 ]}; transactions := ∅ |};
      trace := [Send 7 (MsgNotEnoughCredits 1 2); Send 7 MsgPremiumFeatures] |}).
Proof.
  apply (try_hairstyle_insufficient_credit (text_message 7 "/try")
           (world_of 7 {[ "face_shape" := VStr "oval" ]} 1)
           {[ "face_shape" := VStr "oval" ]}).
  - reflexivity.
  - exists (VStr "oval"). reflexivity.
  - vm_compute. reflexivity.
Defined.

(** C6 as stated fails: a user with balance 1 who has no face shape stored
    is told to send a photo first, not that the credits do not suffice. *)
Lemma try_hairstyle_without_face_shape :
  balance (world_of 7 ∅ 1) 7 = 1 /\
  try_hairstyle_command (text_message 7 "/try") (world_of 7 ∅ 1) =
  (Ret tt,
   {| user_data := {[ 7 := ∅ ]};
      db := {| users := {[ 7 := 1 ]}; transactions := ∅ |};
      trace := [Send 7 MsgNoPhotoYet] |}).
Proof. split; reflexivity. Qed.

(** ** Hairstyle generation: charging and the wait state *)

Lemma preserves_bind {A B} (Q : World -> Prop) (m : M A) (k : A -> M B) :
  preserves Q m -> (forall a, preserves Q (k a)) -> preserves Q (bind m k).
Proof.
  intros Hm Hk w HQ. unfold bind. specialize (Hm w HQ).
  destruct (m w) as [[a|] w']; simpl in *; [|done]. by apply Hk.
Qed.

Lemma preserves_try {A} (Q : World -> Prop) (m h : M A) :
  preserves Q m -> preserves Q h -> preserves Q (try_except m h).
Proof.
  intros Hm Hh w HQ. unfold try_except. specialize (Hm w HQ).
  destruct (m w) as [[a|] w']; simpl in *; [done|]. by apply Hh.
Qed.

Lemma preserves_reads_only {A} (Q : World -> Prop) (m : M A) :
  reads_only m -> preserves Q m.
Proof. intros H w HQ. by rewrite H. Qed.

Lemma reads_only_bind {A B} (m : M A) (k : A -> M B) :
  reads_only m -> (forall a, reads_only (k a)) -> reads_only (bind m k).
Proof.
  intros Hm Hk w. unfold bind. specialize (Hm w).
  destruct (m w) as [[a|] w']; simpl in *; [|done]. by rewrite Hk.
Qed.

Ltac reads_step :=
  match goal with
  | |- reads_only (bind _ _) => apply reads_only_bind; [|intros ?]
  | |- reads_only (match ?x with _ => _ end) => destruct x
  | |- reads_only _ => intros ?; reflexivity
  end.

Lemma reads_only_the_session (chat : Z) : reads_only (the_session chat).
Proof. unfold the_session. repeat reads_step. Qed.

Lemma reads_only_session_index (chat : Z) (key : string) :
  reads_only (session_index chat key).
Proof. unfold session_index, the_session. repeat reads_step. Qed.

Lemma reads_only_selection (v : value) : reads_only (selection v).
Proof. unfold selection. repeat reads_step. Qed.

Lemma wait_reset_emit (chat : Z) (e : event) :
  preserves (hairstyle_wait_reset chat) (emit e).
Proof. by intros w. Qed.

Lemma wait_reset_write_db (chat : Z) (d : Database) :
  preserves (hairstyle_wait_reset chat) (write_db d).
Proof. by intros w. Qed.

Lemma wait_reset_session_set (chat : Z) (key : string) (v : value) :
  key <> "waiting_for_hairstyle_selection" -> key <> "customization_state" ->
  preserves (hairstyle_wait_reset chat) (session_set chat key v).
Proof.
  intros H1 H2 w [Ha Hb]. destruct (user_data w !! chat) as [d|] eqn:E.
  - rewrite (session_set_world _ _ _ _ d E).
    unfold hairstyle_wait_reset, session_of in *.
    simpl. rewrite lookup_insert_eq. simpl. rewrite E in Ha, Hb. simpl in *.
    by rewrite !lookup_insert_ne by done.
  - by rewrite session_set_missing by done.
Qed.

Ltac wait_reset_step :=
  match goal with
  | |- preserves _ (bind _ _) => apply preserves_bind; [|intros ?]
  | |- preserves _ (try_except _ _) => apply preserves_try
  | |- preserves _ (session_set _ _ _) => apply wait_reset_session_set; done
  | |- preserves _ (send_message _ _) => apply wait_reset_emit
  | |- preserves _ (send_photo _ _ _) => apply wait_reset_emit
  | |- preserves _ (write_db _) => apply wait_reset_write_db
  | |- preserves _ (the_session _) =>
      apply preserves_reads_only, reads_only_the_session
  | |- preserves _ (session_index _ _) =>
      apply preserves_reads_only, reads_only_session_index
  | |- preserves _ (selection _) =>
      apply preserves_reads_only, reads_only_selection
  | |- preserves _ (match ?x with _ => _ end) => destruct x
  | |- preserves _ _ => apply preserves_reads_only; intros ?; reflexivity
  end.

Lemma keeps_db_bind_ask {A B} (o : outcome A) (k : A -> M B) :
  (forall a, o = Ret a -> keeps_db (k a)) -> keeps_db (bind (ask o) k).
Proof.
  intros Hk w. unfold bind, ask. destruct o as [a|]; simpl; [|done].
  by apply Hk.
Qed.

Lemma keeps_db_selection (v : value) : keeps_db (selection v).
Proof. unfold selection. frame. Qed.

Lemma keeps_db_refresh_landmarks (C : Collab) (chat : Z) (v : value) :
  keeps_db (refresh_landmarks C chat v).
Proof. unfold refresh_landmarks. frame. Qed.

#[export] Hint Resolve keeps_db_selection keeps_db_refresh_landmarks : frame.

Lemma generate_hairstyle_keeps_db (C : Collab) (chat : Z) :
  (forall d img lm fs idx,
      generation_failed (apply_hairstyle C d img lm fs idx)) ->
  keeps_db (generate_hairstyle C chat).
Proof.
  intros Hfail. unfold generate_hairstyle.
  repeat match goal with
  | |- keeps_db (bind (ask (apply_hairstyle ?C ?d ?i ?l ?f ?n)) _) =>
      apply keeps_db_bind_ask; intros r Hr;
      pose proof (Hfail d i l f n) as F; rewrite Hr in F;
      destruct r as [[|? ?]|]; simpl in F; [|done|]
  | |- _ => frame_step
  end.
Qed.

Lemma generate_hairstyle_resets_wait (C : Collab) (chat : Z) (w : World) :
  is_Some (user_data w !! chat) ->
  hairstyle_wait_reset chat (snd (generate_hairstyle C chat w)).
Proof.
  intros [d Hd]. unfold generate_hairstyle.
  unfold bind at 1. rewrite (session_set_world _ _ _ _ d Hd).
  unfold bind at 1.
  erewrite session_set_world by (simpl; apply lookup_insert_eq).
  match goal with |- hairstyle_wait_reset _ (snd (?m ?w)) =>
    assert (Hp : preserves (hairstyle_wait_reset chat) m); [|apply Hp] end.
  - repeat wait_reset_step.
    unfold refresh_landmarks. repeat wait_reset_step.
  - unfold hairstyle_wait_reset, session_of. simpl.
    rewrite lookup_insert_eq. simpl. rewrite lookup_insert_eq.
    rewrite lookup_insert_ne by done. by rewrite lookup_insert_eq.
Qed.

(** C7 (as amended): when the generation collaborator produces no image
    ([None], empty bytes or an exception), [generate_hairstyle] charges
    nothing -- the database, hence every balance, is as before; the 2-credit
    charge sits behind the check of the result.  The wait state is not kept:
    the function first clears the hairstyle wait flag and puts the
    customization state to ['selecting_style'], and so leaves them on
    failure too. *)
Theorem failed_generation_charges_nothing (C : Collab) (chat : Z) (w : World) :
  (forall d img lm fs idx,
      generation_failed (apply_hairstyle C d img lm fs idx)) ->
  let w' := snd (generate_hairstyle C chat w) in
  db w' = db w /\
  balance w' chat = balance w chat /\
  (is_Some (user_data w !! chat) -> hairstyle_wait_reset chat w').
Proof.
  intros Hfail w'. subst w'.
  pose proof (generate_hairstyle_keeps_db C chat Hfail w) as Hdb.
  split; [done|]. split.
  - unfold balance. by rewrite Hdb.
  - apply generate_hairstyle_resets_wait.
Qed.

Lemma failed_generation_charges_nothing_witness :
  balance (snd (generate_hairstyle failing_generation 7
                  (world_of 7 styling_session 5))) 7 = 5.
Proof.
  destruct (failed_generation_charges_nothing failing_generation 7
              (world_of 7 styling_session 5)) as (_ & Hbal & _).
  - intros d img lm fs idx. exact I.
  - rewrite Hbal. reflexivity.
Defined.

(** C7 as stated fails in its second half: after a generation that
    returned [None] the balance is still 5, but the hairstyle wait flag,
    set before the call, is cleared and the customization state has moved
    from ['input_color_length'] to ['selecting_style']. *)
Lemma failed_generation_changes_wait_state :
  let w := world_of 7 styling_session 5 in
  let w' := snd (generate_hairstyle failing_generation 7 w) in
  new_events w w' =
    [Send 7 (MsgHairstyleGenerating (VStr "Bob") []); Send 7 MsgError] /\
  balance w' 7 = balance w 7 /\
  dict_get (session_of w 7) "waiting_for_hairstyle_selection" = VBool true /\
  dict_get (session_of w' 7) "waiting_for_hairstyle_selection" = VBool false /\
  dict_get (session_of w 7) "customization_state" = VStr "input_color_length" /\
  dict_get (session_of w' 7) "customization_state" = VStr "selecting_style" /\
  active_wait_reasons (session_of w' 7) <> active_wait_reasons (session_of w 7).
Proof.
  cbv zeta. repeat split; try (vm_compute; reflexivity).
  vm_compute. discriminate.
Qed.

(** ** Payment handling *)

Lemma reads_only_try {A} (m h : M A) :
  reads_only m -> reads_only h -> reads_only (try_except m h).
Proof.
  intros Hm Hh w. unfold try_except. specialize (Hm w).
  destruct (m w) as [[a|] w']; simpl in *; [done|]. subst. apply Hh.
Qed.

Ltac reads_step' :=
  match goal with
  | |- reads_only (try_except _ _) => apply reads_only_try
  | |- _ => reads_step
  end.

Lemma reads_only_check_provider C pid : reads_only (check_provider C pid).
Proof. unfold check_provider. repeat reads_step'. Qed.

Lemma check_provider_world C pid w :
  check_provider C pid w = (fst (check_provider C pid w), w).
Proof.
  pose proof (reads_only_check_provider C pid w).
  destruct (check_provider C pid w); simpl in *; by subst.
Qed.

Lemma is_str_true v s : is_str v s = true -> v = VStr s.
Proof.
  destruct v; simpl; try discriminate. intros H. apply String.eqb_eq in H. by subst.
Qed.

Lemma hsp_raise C chat pid w :
  fst (check_provider C pid w) = Raise ->
  handle_successful_payment C chat pid w =
  (Ret false, log w (Send chat MsgPaymentProcessingError)).
Proof.
  intros H. unfold handle_successful_payment, try_except, bind.
  rewrite check_provider_world, H. reflexivity.
Qed.

Lemma hsp_refuses C chat pid w st pd :
  fst (check_provider C pid w) = Ret (st, pd) ->
  is_str st (success_status (provider_of pid)) = false ->
  handle_successful_payment C chat pid w =
  (Ret false,
   log w (Send chat (refusal_message st (success_status (provider_of pid))))).
Proof.
  intros H Hs. unfold handle_successful_payment, try_except, bind.
  rewrite check_provider_world, H. unfold refusal_message. rewrite Hs.
  destruct (is_str st "error"); [reflexivity|]. simpl.
  destruct (is_str st "expired"); [reflexivity|].
  destruct (is_str st "canceled"); reflexivity.
Qed.

Lemma hsp_completed C chat pid w pd t :
  fst (check_provider C pid w) =
    Ret (VStr (success_status (provider_of pid)), pd) ->
  transactions (db w) !! pid = Some t -> t_status t = Completed ->
  handle_successful_payment C chat pid w =
  (Ret true,
   log w (Send chat (MsgPaymentAlreadyProcessed (t_credits t) (balance w chat)))).
Proof.
  intros H Ht Hc. unfold handle_successful_payment, try_except, bind.
  rewrite check_provider_world, H.
  assert (He : is_str (VStr (success_status (provider_of pid))) "error" = false).
  { by destruct (provider_of pid). }
  rewrite He. simpl. rewrite String.eqb_refl. simpl.
  unfold read_db. simpl. rewrite Ht, Hc. reflexivity.
Qed.

Lemma hsp_grants_only_on_success C chat pid w :
  db (snd (handle_successful_payment C chat pid w)) = db w \/
  exists pd, fst (check_provider C pid w) =
             Ret (VStr (success_status (provider_of pid)), pd).
Proof.
  destruct (fst (check_provider C pid w)) as [[st pd]|] eqn:E.
  - destruct (is_str st (success_status (provider_of pid))) eqn:Hs.
    + right. apply is_str_true in Hs. subst. eauto.
    + left. by rewrite (hsp_refuses _ _ _ _ _ _ E Hs).
  - left. by rewrite hsp_raise.
Qed.

Lemma hsp_completed_db C chat pid w t :
  transactions (db w) !! pid = Some t -> t_status t = Completed ->
  db (snd (handle_successful_payment C chat pid w)) = db w.
Proof.
  intros Ht Hc. destruct (hsp_grants_only_on_success C chat pid w) as [H|[pd H]]; [done|].
  by rewrite (hsp_completed _ _ _ _ _ _ H Ht Hc).
Qed.

Lemma stripe_completed C chat pid w t :
  transactions (db w) !! pid = Some t -> t_status t = Completed ->
  handle_stripe_payment C chat pid w =
  (Ret true, log w (Send chat (MsgStripeAlreadyProcessed (balance w chat)))).
Proof.
  intros Ht Hc. unfold handle_stripe_payment, try_except, bind, read_db.
  simpl. rewrite Ht, Hc. reflexivity.
Qed.

Lemma replay_db handle answers chat pid w (P : Database -> Prop) :
  (forall C w', P (db w') -> db (snd (handle C chat pid w')) = db w') ->
  P (db w) -> db (replay handle answers chat pid w) = db w.
Proof.
  intros Hstep. revert w. induction answers as [|C rest IH]; intros w HP; simpl.
  - done.
  - rewrite IH; rewrite Hstep; done.
Qed.

Lemma provider_of_legacy pid :
  provider_of pid = LegacyCrypto <->
  startswith pid "TEST_" = true \/ startswith pid "CP_" = true.
Proof.
  unfold provider_of.
  destruct (startswith pid "TEST_"), (startswith pid "CP_"),
    (startswith pid "cs_"), (startswith pid "pi_"); simpl; intuition congruence.
Qed.

Lemma provider_of_stripe pid :
  provider_of pid = Stripe <->
  startswith pid "TEST_" = false /\ startswith pid "CP_" = false /\
  (startswith pid "cs_" = true \/ startswith pid "pi_" = true).
Proof.
  unfold provider_of.
  destruct (startswith pid "TEST_"), (startswith pid "CP_"),
    (startswith pid "cs_"), (startswith pid "pi_"); simpl; intuition congruence.
Qed.

Lemma provider_of_crypto_bot pid :
  provider_of pid = CryptoBot <->
  startswith pid "TEST_" = false /\ startswith pid "CP_" = false /\
  startswith pid "cs_" = false /\ startswith pid "pi_" = false.
Proof.
  unfold provider_of.
  destruct (startswith pid "TEST_"), (startswith pid "CP_"),
    (startswith pid "cs_"), (startswith pid "pi_"); simpl; intuition congruence.
Qed.

Lemma check_provider_legacy C pid w :
  provider_of pid = LegacyCrypto ->
  fst (check_provider C pid w) =
  match crypto_check_payment_status C pid with
  | Ret st => Ret (st, None)
  | Raise => Raise
  end.
Proof.
  intros H. unfold check_provider. rewrite H. unfold bind, ask.
  by destruct (crypto_check_payment_status C pid).
Qed.

Lemma check_provider_crypto_bot C pid w :
  provider_of pid = CryptoBot ->
  fst (check_provider C pid w) =
  match cb_check_payment_status C pid, cb_get_payment_data C pid with
  | Ret st, Ret pd => Ret (st, pd)
  | _, _ => Raise
  end.
Proof.
  intros H. unfold check_provider. rewrite H. unfold bind, ask.
  destruct (cb_check_payment_status C pid); [|done].
  by destruct (cb_get_payment_data C pid).
Qed.

Lemma check_provider_stripe C pid w st :
  provider_of pid = Stripe ->
  stripe_check_payment_status C pid = Ret st -> st <> VNone ->
  fst (check_provider C pid w) =
  Ret (st, match stripe_get_payment_data C pid with
           | Ret pd => pd
           | Raise => None
           end).
Proof.
  intros H Hst Hn. unfold check_provider. rewrite H.
  unfold try_except, bind, ask. rewrite Hst.
  destruct st; try done; by destruct (stripe_get_payment_data C pid).
Qed.

Lemma add_credits_int chat n w :
  add_credits chat (VInt n) w = (Ret (n, balance w chat + n), credited w chat n).
Proof. reflexivity. Qed.

Lemma stripe_return_pending C chat sid w st :
  stripe_check_payment_status C sid = Ret st ->
  is_str st "completed" = false -> is_str st "pending" = true ->
  stripe_return C chat sid w = (Ret tt, log w (Send chat MsgStripePending)).
Proof.
  intros H Hc Hp. unfold stripe_return, bind, ask. rewrite H, Hc, Hp.
  reflexivity.
Qed.

Lemma stripe_return_unconfirmed C chat sid w st :
  stripe_check_payment_status C sid = Ret st ->
  is_str st "completed" = false -> is_str st "pending" = false ->
  stripe_return C chat sid w =
  (Ret tt,
   log (credited w chat 5)
       (Send chat (MsgStripeCompleted 5 (balance w chat + 5)))).
Proof.
  intros H Hc Hp. unfold stripe_return, bind, ask. rewrite H, Hc, Hp.
  reflexivity.
Qed.

Lemma balance_credited w chat n :
  balance (credited w chat n) chat = balance w chat + n.
Proof.
  unfold balance, credited, get_user_credits, update_user_credits. simpl.
  by rewrite lookup_insert_eq.
Qed.

Lemma stripe_link_no_data C chat sid w pd :
  match transactions (db w) !! sid with
  | Some t => t_status t <> Completed
  | None => is_Some (users (db w) !! chat)
  end ->
  stripe_get_payment_data C sid = Ret pd -> opt_dict_truthy pd = false ->
  fst (handle_stripe_payment C chat sid w) = Ret true /\
  balance (snd (handle_stripe_payment C chat sid w)) chat = balance w chat + 5.
Proof.
  intros Ht Hpd Hf. unfold handle_stripe_payment, try_except, bind, read_db, ask.
  simpl. rewrite Hpd, Hf.
  destruct (transactions (db w) !! sid) as [t|] eqn:E.
  - destruct (t_status t) eqn:Es; try done; simpl;
      (split; [reflexivity|]);
      unfold balance, get_user_credits; simpl; by rewrite lookup_insert_eq.
  - destruct Ht as [u Hu]. simpl. rewrite Hu. simpl.
    split; [reflexivity|].
    unfold balance, get_user_credits; simpl. by rewrite lookup_insert_eq.
Qed.


(** C1: once the transaction of a payment id is completed, handling the
    payment again -- any number of times, whatever the providers answer in
    between -- grants nothing: the database, and with it the balance of the
    user, is what it was.  [handle_stripe_payment] reports the payment as
    already processed and returns success; [handle_successful_payment] does
    so whenever the provider still reports its success status, as it does
    when the paid callback is replayed. *)
Theorem completed_payment_replay_grants_nothing (answers : list Collab)
    (C : Collab) (chat : Z) (pid : string) (w : World) (t : Transaction) :
  transactions (db w) !! pid = Some t ->
  t_status t = Completed ->
  db (replay handle_successful_payment answers chat pid w) = db w /\
  db (replay handle_stripe_payment answers chat pid w) = db w /\
  balance (replay handle_successful_payment answers chat pid w) chat =
    balance w chat /\
  balance (replay handle_stripe_payment answers chat pid w) chat =
    balance w chat /\
  handle_stripe_payment C chat pid w =
    (Ret true, log w (Send chat (MsgStripeAlreadyProcessed (balance w chat)))) /\
  (forall pd,
      fst (check_provider C pid w) =
        Ret (VStr (success_status (provider_of pid)), pd) ->
      handle_successful_payment C chat pid w =
      (Ret true,
       log w (Send chat
                (MsgPaymentAlreadyProcessed (t_credits t) (balance w chat))))).
Proof.
  intros Ht Hc.
  assert (H1 : db (replay handle_successful_payment answers chat pid w) = db w).
  { apply (replay_db _ _ _ _ _
             (fun d => exists t', transactions d !! pid = Some t' /\
                                  t_status t' = Completed)).
    - intros C' w' (t' & Ht' & Hc'). by apply (hsp_completed_db _ _ _ _ t').
    - eauto. }
  assert (H2 : db (replay handle_stripe_payment answers chat pid w) = db w).
  { apply (replay_db _ _ _ _ _
             (fun d => exists t', transactions d !! pid = Some t' /\
                                  t_status t' = Completed)).
    - intros C' w' (t' & Ht' & Hc').
      by rewrite (stripe_completed _ _ _ _ t' Ht' Hc').
    - eauto. }
  repeat split; try done.
  - unfold balance. by rewrite H1.
  - unfold balance. by rewrite H2.
  - by apply (stripe_completed _ _ _ _ t).
  - intros pd Hpd. by apply (hsp_completed _ _ _ _ pd).
Qed.

Lemma completed_payment_replay_grants_nothing_witness :
  balance (replay handle_successful_payment
             [crypto_bot_paid; crypto_bot_paid; offline] 7 "INV1" paid_world) 7
  = 10.
Proof.
  destruct (completed_payment_replay_grants_nothing
              [crypto_bot_paid; crypto_bot_paid; offline] crypto_bot_paid
              7 "INV1" paid_world
              {| t_user := 7; t_amount := 500; t_credits := 10;
                 t_status := Completed |})
    as (_ & _ & Hbal & _).
  - reflexivity.
  - reflexivity.
  - rewrite Hbal. reflexivity.
Defined.

(** C8: [handle_successful_payment] picks the provider from the prefix of
    the payment id alone -- ["TEST_"] or ["CP_"]: the legacy crypto module;
    otherwise ["cs_"] or ["pi_"]: Stripe; otherwise Crypto Bot -- asks that
    provider for the status, expects ["completed"] from the first two and
    ["paid"] from Crypto Bot, and touches the ledger only when the status it
    obtained is the expected one; with any other status it answers with a
    refusal and returns failure. *)
Theorem provider_and_success_status_by_prefix (C : Collab) (chat : Z)
    (pid : string) (w : World) :
  (provider_of pid = LegacyCrypto <->
   startswith pid "TEST_" = true \/ startswith pid "CP_" = true) /\
  (provider_of pid = Stripe <->
   startswith pid "TEST_" = false /\ startswith pid "CP_" = false /\
   (startswith pid "cs_" = true \/ startswith pid "pi_" = true)) /\
  (provider_of pid = CryptoBot <->
   startswith pid "TEST_" = false /\ startswith pid "CP_" = false /\
   startswith pid "cs_" = false /\ startswith pid "pi_" = false) /\
  success_status LegacyCrypto = "completed" /\
  success_status Stripe = "completed" /\
  success_status CryptoBot = "paid" /\
  (provider_of pid = LegacyCrypto ->
   fst (check_provider C pid w) =
   match crypto_check_payment_status C pid with
   | Ret st => Ret (st, None)
   | Raise => Raise
   end) /\
  (provider_of pid = Stripe ->
   forall st, stripe_check_payment_status C pid = Ret st -> st <> VNone ->
   fst (check_provider C pid w) =
   Ret (st, match stripe_get_payment_data C pid with
            | Ret pd => pd
            | Raise => None
            end)) /\
  (provider_of pid = CryptoBot ->
   fst (check_provider C pid w) =
   match cb_check_payment_status C pid, cb_get_payment_data C pid with
   | Ret st, Ret pd => Ret (st, pd)
   | _, _ => Raise
   end) /\
  (db (snd (handle_successful_payment C chat pid w)) = db w \/
   exists pd, fst (check_provider C pid w) =
              Ret (VStr (success_status (provider_of pid)), pd)) /\
  (forall st pd,
      fst (check_provider C pid w) = Ret (st, pd) ->
      is_str st (success_status (provider_of pid)) = false ->
      handle_successful_payment C chat pid w =
      (Ret false,
       log w (Send chat
                (refusal_message st (success_status (provider_of pid)))))).
Proof.
  split; [apply provider_of_legacy|].
  split; [apply provider_of_stripe|].
  split; [apply provider_of_crypto_bot|].
  do 3 (split; [reflexivity|]).
  split; [apply check_provider_legacy|].
  split; [intros H st; by apply check_provider_stripe|].
  split; [apply check_provider_crypto_bot|].
  split; [apply hsp_grants_only_on_success|].
  intros st pd. apply hsp_refuses.
Qed.

Lemma provider_and_success_status_by_prefix_witness :
  provider_of "cs_test_1" = Stripe /\
  handle_successful_payment stripe_unconfirmed 7 "cs_test_1" (world_of 7 ∅ 3) =
  (Ret false, log (world_of 7 ∅ 3) (Send 7 MsgPaymentCanceled)).
Proof.
  destruct (provider_and_success_status_by_prefix stripe_unconfirmed 7
              "cs_test_1" (world_of 7 ∅ 3))
    as (_ & HS & _ & _ & _ & _ & _ & _ & _ & _ & Hrefuse).
  split.
  - apply HS. repeat split; try reflexivity. left. reflexivity.
  - apply (Hrefuse (VStr "canceled") None); reflexivity.
Defined.

(** C2 (as amended): [handle_successful_payment] grants nothing unless the
    provider reports its success status -- with any other status the user is
    told that the invoice expired, was canceled or is not completed yet, or
    that the check failed, and when the provider cannot be asked, to contact
    support.  The return through a success deep link does not wait for a
    confirmation: for a Stripe session that is not a payment link, [start]
    grants nothing only while the status is ["pending"], and adds the
    default 5 credits for every status other than ["completed"] and
    ["pending"]; the payment-link handler [handle_stripe_payment] never asks
    for the status and adds 5 credits when Stripe has no payment data. *)
Theorem credit_grants_and_confirmation (C : Collab) (chat : Z) (pid : string)
    (w : World) :
  (forall st pd,
      fst (check_provider C pid w) = Ret (st, pd) ->
      is_str st (success_status (provider_of pid)) = false ->
      handle_successful_payment C chat pid w =
      (Ret false,
       log w (Send chat
                (refusal_message st (success_status (provider_of pid)))))) /\
  (fst (check_provider C pid w) = Raise ->
   handle_successful_payment C chat pid w =
   (Ret false, log w (Send chat MsgPaymentProcessingError))) /\
  (forall st,
      stripe_check_payment_status C pid = Ret st ->
      is_str st "completed" = false ->
      stripe_return C chat pid w =
      if is_str st "pending"
      then (Ret tt, log w (Send chat MsgStripePending))
      else (Ret tt,
            log (credited w chat 5)
                (Send chat (MsgStripeCompleted 5 (balance w chat + 5))))) /\
  (forall pd,
      match transactions (db w) !! pid with
      | Some t => t_status t <> Completed
      | None => is_Some (users (db w) !! chat)
      end ->
      stripe_get_payment_data C pid = Ret pd ->
      opt_dict_truthy pd = false ->
      fst (handle_stripe_payment C chat pid w) = Ret true /\
      balance (snd (handle_stripe_payment C chat pid w)) chat =
      balance w chat + 5).
Proof.
  split; [intros st pd; apply hsp_refuses|].
  split; [apply hsp_raise|].
  split.
  - intros st Hst Hc. destruct (is_str st "pending") eqn:Hp.
    + by apply (stripe_return_pending _ _ _ _ st).
    + by apply (stripe_return_unconfirmed _ _ _ _ st).
  - intros pd. apply stripe_link_no_data.
Qed.

Lemma credit_grants_and_confirmation_witness :
  stripe_return stripe_unconfirmed 7 "cs_123" (world_of 7 ∅ 0) =
  (Ret tt,
   log (credited (world_of 7 ∅ 0) 7 5) (Send 7 (MsgStripeCompleted 5 5))).
Proof.
  destruct (credit_grants_and_confirmation stripe_unconfirmed 7 "cs_123"
              (world_of 7 ∅ 0)) as (_ & _ & Hreturn & _).
  apply (Hreturn (VStr "canceled")); reflexivity.
Defined.

(** C2 as stated fails: Stripe reports the session as canceled and has no
    payment data, yet a user who follows the success link is credited 5
    credits and told that the payment succeeded -- on the checkout-session
    path of [start] and on the payment-link path alike. *)
Lemma success_link_grants_without_confirmation :
  let w := world_of 7 ∅ 0 in
  let checkout := start stripe_unconfirmed (text_message 7 "/start success_cs_123") w in
  let link := start stripe_unconfirmed (text_message 7 "/start success_payment_x9") w in
  stripe_check_payment_status stripe_unconfirmed "cs_123" = Ret (VStr "canceled") /\
  stripe_get_payment_data stripe_unconfirmed "x9" = Ret None /\
  balance w 7 = 0 /\
  balance (snd checkout) 7 = 5 /\
  new_events w (snd checkout) = [Send 7 (MsgStripeCompleted 5 5)] /\
  balance (snd link) 7 = 5 /\
  new_events w (snd link) = [Send 7 (MsgStripeProcessed 5 5)].
Proof. cbv zeta. repeat split; vm_compute; reflexivity. Qed.

(** ** The photo handler without an active feature *)

Lemma emits_only_bind {A B} P (m : M A) (k : A -> M B) :
  emits_only P m -> (forall a, emits_only P (k a)) -> emits_only P (bind m k).
Proof.
  intros Hm Hk w. unfold bind. destruct (Hm w) as (l & Hl & HP).
  destruct (m w) as [[a|] w']; simpl in *.
  - destruct (Hk a w') as (l' & Hl' & HP'). exists (l ++ l')%list.
    rewrite Hl', Hl, app_assoc. split; [done|]. by apply Forall_app.
  - eauto.
Qed.

Lemma emits_only_try {A} P (m h : M A) :
  emits_only P m -> emits_only P h -> emits_only P (try_except m h).
Proof.
  intros Hm Hh w. unfold try_except. destruct (Hm w) as (l & Hl & HP).
  destruct (m w) as [[a|] w']; simpl in *.
  - eauto.
  - destruct (Hh w') as (l' & Hl' & HP'). exists (l ++ l')%list.
    rewrite Hl', Hl, app_assoc. split; [done|]. by apply Forall_app.
Qed.

Lemma emits_only_silent {A} P (m : M A) :
  (forall w, trace (snd (m w)) = trace w) -> emits_only P m.
Proof.
  intros H w. exists []. rewrite H, app_nil_r. split; [done|]. constructor.
Qed.

Lemma emits_only_emit P e : P e -> emits_only P (emit e).
Proof.
  intros H w. exists [e]. split; [done|]. by repeat constructor.
Qed.

Lemma session_update_trace chat f w :
  trace (snd (session_update chat f w)) = trace w.
Proof.
  unfold session_update, the_session, bind, read_sessions, write_sessions.
  simpl. by destruct (user_data w !! chat).
Qed.

Lemma session_set_trace chat k v w :
  trace (snd (session_set chat k v w)) = trace w.
Proof.
  unfold session_set, the_session, bind, read_sessions, write_sessions.
  simpl. by destruct (user_data w !! chat).
Qed.

Lemma init_session_trace chat w :
  trace (snd (init_session chat w)) = trace w.
Proof.
  unfold init_session, bind, read_sessions, write_sessions.
  simpl. by destruct (user_data w !! chat).
Qed.

Ltac emits_step :=
  match goal with
  | |- emits_only _ (bind _ _) => apply emits_only_bind; [|intros ?]
  | |- emits_only _ (try_except _ _) => apply emits_only_try
  | |- emits_only _ (emit _) => apply emits_only_emit; exact I
  | |- emits_only _ (send_message _ _) => apply emits_only_emit; exact I
  | |- emits_only _ (send_photo _ _ _) => apply emits_only_emit; exact I
  | |- emits_only _ (session_set _ _ _) =>
      apply emits_only_silent, session_set_trace
  | |- emits_only _ (session_update _ _) =>
      apply emits_only_silent, session_update_trace
  | |- emits_only _ (init_session _) =>
      apply emits_only_silent, init_session_trace
  | |- emits_only _ (match ?x with _ => _ end) => destruct x
  | |- emits_only _ _ => apply emits_only_silent; intros ?; reflexivity
  end.

Lemma photo_default_emits C msg :
  emits_only not_a_call (photo_default C msg).
Proof. unfold photo_default, download_largest. repeat emits_step. Qed.

Lemma keeps_db_session_update chat f : keeps_db (session_update chat f).
Proof. unfold session_update. frame. Qed.
#[export] Hint Resolve keeps_db_session_update : frame.

Lemma photo_default_keeps_db C msg : keeps_db (photo_default C msg).
Proof. unfold photo_default, download_largest. frame. Qed.

Lemma image_stored_emit chat img e : preserves (image_stored chat img) (emit e).
Proof. by intros w. Qed.

Lemma image_stored_init chat img : preserves (image_stored chat img) (init_session chat).
Proof.
  intros w H. unfold init_session, bind, read_sessions, write_sessions. simpl.
  unfold image_stored, session_of in *.
  destruct (user_data w !! chat) eqn:E; simpl in *.
  - by rewrite E.
  - by rewrite lookup_empty in H.
Qed.

Lemma image_stored_update chat img f :
  (forall d, d !! "image_data" = Some (VBytes img) ->
             f d !! "image_data" = Some (VBytes img)) ->
  preserves (image_stored chat img) (session_update chat f).
Proof.
  intros Hf w H. unfold session_update, the_session, bind, read_sessions,
    write_sessions. simpl. unfold image_stored, session_of in *.
  destruct (user_data w !! chat) eqn:E; simpl in *.
  - rewrite lookup_insert_eq. simpl. by apply Hf.
  - by rewrite E.
Qed.

Ltac image_step :=
  match goal with
  | |- preserves _ (bind _ _) => apply preserves_bind; [|intros ?]
  | |- preserves _ (try_except _ _) => apply preserves_try
  | |- preserves _ (send_message _ _) => apply image_stored_emit
  | |- preserves _ (send_photo _ _ _) => apply image_stored_emit
  | |- preserves _ (init_session _) => apply image_stored_init
  | |- preserves _ (match ?x with _ => _ end) => destruct x
  | |- preserves _ _ => apply preserves_reads_only; intros ?; reflexivity
  end.

Lemma photo_default_stores_image C msg w file img :
  last (msg_photo msg) = Some file -> download_file C file = Ret img ->
  image_stored (msg_chat msg) img (snd (photo_default C msg w)).
Proof.
  intros Hlast Hdl. unfold photo_default.
  unfold bind at 1. unfold send_message at 1, emit at 1.
  destruct (msg_photo msg) as [|f0 fs] eqn:Ephotos; [done|].
  unfold bind at 1. unfold download_largest at 1. rewrite Hlast. unfold ask at 1.
  rewrite Hdl.
  unfold bind at 1.
  match goal with |- context [init_session ?c ?w0] =>
    destruct (init_session c w0) as [[[]|] w1] eqn:Einit end.
  2: { unfold init_session, bind, read_sessions, write_sessions in Einit.
       simpl in Einit. by destruct (user_data w !! msg_chat msg). }
  assert (Hs : exists d, user_data w1 !! msg_chat msg = Some d).
  { unfold init_session, bind, read_sessions, write_sessions in Einit.
    simpl in Einit. destruct (user_data w !! msg_chat msg) eqn:E.
    - inversion Einit; subst; simpl. eauto.
    - inversion Einit; subst; simpl. rewrite lookup_insert_eq. eauto. }
  destruct Hs as [d Hd].
  unfold bind at 1. rewrite (session_set_world _ _ _ _ d Hd).
  match goal with |- image_stored _ _ (snd (?m ?w2)) =>
    assert (Hp : preserves (image_stored (msg_chat msg) img) m); [|apply Hp] end.
  - repeat image_step.
    apply image_stored_update. intros d' _. unfold store_analysis.
    rewrite lookup_insert_ne by done. by rewrite lookup_insert_eq.
  - unfold image_stored, session_of. simpl. rewrite lookup_insert_eq. simpl.
    by rewrite lookup_insert_eq.
Qed.

Lemma emits_first_bind_emit {B} e P (k : unit -> M B) :
  (forall a, emits_only P (k a)) -> emits_first e P (bind (emit e) k).
Proof.
  intros Hk w. unfold bind, emit. simpl.
  destruct (Hk tt {| user_data := user_data w; db := db w;
                     trace := (trace w ++ [e])%list |}) as (l & Hl & HP).
  exists l. rewrite Hl. simpl. by rewrite <- app_assoc.
Qed.

Lemma emits_first_try {A} e P (m h : M A) :
  emits_first e P m -> emits_only P h -> emits_first e P (try_except m h).
Proof.
  intros Hm Hh w. unfold try_except. destruct (Hm w) as (l & Hl & HP).
  destruct (m w) as [[a|] w']; simpl in *.
  - eauto.
  - destruct (Hh w') as (l' & Hl' & HP'). exists (l ++ l')%list.
    rewrite Hl', Hl, <- app_assoc. split; [done|]. by apply Forall_app.
Qed.

Lemma photo_default_emits_first C msg :
  emits_first (Send (msg_chat msg) MsgProcessing) not_a_call
    (photo_default C msg).
Proof.
  unfold photo_default, send_message. apply emits_first_bind_emit. intros _.
  unfold download_largest, send_message. repeat emits_step.
Qed.

Lemma process_photo_no_feature C msg w :
  current_feature_of (user_data w) (msg_chat msg) = VNone ->
  process_photo C msg w =
  try_except (photo_default C msg)
    (if msg_chat msg =? 0 then ret tt
     else send_message (msg_chat msg) MsgError) w.
Proof.
  intros H. unfold process_photo, try_except, bind, read_sessions. simpl.
  by rewrite H.
Qed.

Lemma current_feature_of_session w chat :
  current_feature_of (user_data w) chat =
  dict_get (session_of w chat) "current_feature".
Proof.
  unfold current_feature_of, session_of. by destruct (user_data w !! chat).
Qed.

(** C5 (as amended): a photo from a chat with no active feature is given
    to the standard face analysis: the bot first answers that it is
    processing, hands the photo to no feature-specific handler, stores the
    downloaded photo as the image of the chat and leaves the database alone.
    [/start] always leaves the chat without an active feature, so a photo
    sent after a mid-flow [/start] is handled this way and does not resume
    the interrupted flow. *)
Theorem photo_without_feature_gets_standard_analysis (C : Collab)
    (msg : message) (w : World) :
  current_feature_of (user_data w) (msg_chat msg) = VNone ->
  let w' := snd (process_photo C msg w) in
  (exists rest,
      new_events w w' = Send (msg_chat msg) MsgProcessing :: rest /\
      Forall not_a_call rest) /\
  db w' = db w /\
  (forall file img,
      last (msg_photo msg) = Some file -> download_file C file = Ret img ->
      image_stored (msg_chat msg) img w') /\
  (forall m0 w0,
      current_feature_of (user_data (snd (start C m0 w0))) (msg_chat m0) = VNone).
Proof.
  intros H w'. subst w'. rewrite (process_photo_no_feature _ _ _ H).
  split; [|split; [|split]].
  - destruct (emits_first_try (Send (msg_chat msg) MsgProcessing) not_a_call
                (photo_default C msg)
                (if msg_chat msg =? 0 then ret tt
                 else send_message (msg_chat msg) MsgError)
                (photo_default_emits_first C msg)) with (w := w)
      as (l & Hl & HP).
    + unfold send_message. repeat emits_step.
    + exists l. split; [|done]. unfold new_events. rewrite Hl.
      apply drop_app_length.
  - assert (Hk : keeps_db (try_except (photo_default C msg)
                   (if msg_chat msg =? 0 then ret tt
                    else send_message (msg_chat msg) MsgError))).
    { apply keeps_db_try; [apply photo_default_keeps_db|frame]. }
    apply Hk.
  - intros file img Hlast Hdl.
    pose proof (photo_default_stores_image C msg w file img Hlast Hdl) as Hs.
    unfold try_except. destruct (photo_default C msg w) as [[a|] w1]; simpl in *.
    + done.
    + destruct (msg_chat msg =? 0); done.
  - intros m0 w0. rewrite current_feature_of_session, start_session.
    apply reset_session_current_feature.
Qed.


Lemma photo_without_feature_gets_standard_analysis_witness :
  image_stored 7 [Byte.x01]
    (snd (process_photo vision_ok (photo_message 7 "f1") world_after_start)).
Proof.
  destruct (photo_without_feature_gets_standard_analysis vision_ok
              (photo_message 7 "f1") world_after_start)
    as (_ & _ & Hstored & _).
  - vm_compute. reflexivity.
  - apply (Hstored "f1"); reflexivity.
Defined.

(** C5 as stated fails: after a mid-flow [/start] the chat has no active
    feature, and a photo is then analysed -- a landmark picture and the
    face-shape result are sent -- and the session changes: the face shape
    is stored and the stored image is replaced. *)
Lemma photo_without_feature_is_analysed :
  let w := world_after_start in
  let w' := snd (process_photo vision_ok (photo_message 7 "f1") w) in
  dict_get (session_of w 7) "current_feature" = VNone /\
  new_events w w' =
    [Send 7 MsgProcessing; SendPhoto 7 [Byte.x02] MsgLandmarkCaption;
     Send 7 (MsgAnalysisDone "Oval" [("ratio", 150)])] /\
  session_of w 7 !! "face_shape" = None /\
  session_of w' 7 !! "face_shape" = Some (VStr "oval") /\
  session_of w 7 !! "image_data" = Some (VBytes [Byte.x09]) /\
  session_of w' 7 !! "image_data" = Some (VBytes [Byte.x01]).
Proof. cbv zeta. repeat split; vm_compute; reflexivity. Qed.


(** ** The text router *)

(** The payment-method wait reason does come first: whatever else the
    session holds, a text that is no command goes to the payment-method
    handler. *)
Lemma payment_method_wait_has_priority (msg : message) (w : World)
    (d : session) :
  startswith (msg_text msg) "/" = false ->
  user_data w !! msg_chat msg = Some d ->
  truthy (dict_get d "waiting_for_payment_method") = true ->
  handle_text msg w =
  (Ret tt, log w (Call HandlePaymentMethodSelection (msg_chat msg))).
Proof.
  intros Hcmd Hd Hwait.
  unfold handle_text. rewrite Hcmd.
  unfold init_session, the_session, read_sessions, bind, ret.
  cbv beta iota zeta. cbn [user_data]. rewrite Hd. cbv beta iota zeta.
  rewrite Hd. by rewrite Hwait.
Qed.

(** C3 fails on the code: while the chat waits for a package choice, the
    digits 5, 6 and 7 are taken by the menu shortcut -- ["5"] activates
    feature 5 and leaves the package wait flag set -- and only other text
    reaches the package handler. *)
Lemma digit_shortcut_preempts_package_selection :
  let w := package_selection_world in
  let w' := snd (handle_text (text_message 42 "5") w) in
  active_wait_reasons (session_of w 42) = ["waiting_for_package_selection"] /\
  new_events w w' = [Send 42 MsgFeature5Intro] /\
  dict_get (session_of w' 42) "current_feature" = VStr "5" /\
  active_wait_reasons (session_of w' 42) = ["waiting_for_package_selection"] /\
  new_events w (snd (handle_text (text_message 42 "6") w)) =
    [Send 42 MsgFeature6Intro] /\
  new_events w (snd (handle_text (text_message 42 "7") w)) =
    [Call GenerateFromTextCommand 42] /\
  new_events w (snd (handle_text (text_message 42 "2") w)) =
    [Call HandlePackageSelection 42].
Proof. cbv zeta. repeat split; vm_compute; reflexivity. Qed.

(** * Further properties *)

(** ** The text router and the reset *)

Ltac unfold_router :=
  unfold handle_text, init_session, session_set, the_session, send_message,
    invoke, emit, read_sessions, write_sessions, bind, ret.

Ltac router_norm E :=
  repeat (progress (cbv beta iota zeta; cbn [user_data db trace fst snd];
                    rewrite ?E, ?lookup_insert_eq)).



Lemma handle_text_fallback (msg : message) (w : World) (d : session) :
  user_data w !! msg_chat msg = Some d ->
  flags_cleared d ->
  is_str (dict_get d "current_feature") "5" = false ->
  is_str (dict_get d "current_feature") "6" = false ->
  startswith (msg_text msg) "/" = false ->
  msg_text msg <> "5" -> msg_text msg <> "6" -> msg_text msg <> "7" ->
  handle_text msg w = (Ret tt, log w (Send (msg_chat msg) MsgUseCommands)).
Proof.
  intros Hd Hflags H5 H6 Hcmd N5 N6 N7.
  unfold flags_cleared, waiting_flags in Hflags.
  repeat (apply List.Forall_cons_iff in Hflags as [? Hflags]).
  unfold_router. rewrite Hcmd. cbv beta iota zeta. cbn [user_data].
  rewrite Hd. cbv beta iota zeta. rewrite Hd.
  apply String.eqb_neq in N5, N6, N7. rewrite N5, N6, N7, !andb_false_r.
  rewrite H5, H6. simpl.
  repeat match goal with H : truthy _ = false |- _ => rewrite H; clear H end.
  reflexivity.
Qed.

Lemma reset_lookup_session (chat : Z) (w : World) :
  user_data (snd (_reset_all_waiting_states chat w)) !! chat =
  Some (reset_session (session_of w chat)).
Proof.
  rewrite reset_world. simpl. rewrite lookup_insert_eq. unfold session_of.
  destruct (user_data w !! chat); simpl; [done|]. by f_equal.
Qed.

Lemma handle_text_after_reset (msg : message) (w : World) (d : session) :
  user_data w !! msg_chat msg = Some (reset_session d) ->
  startswith (msg_text msg) "/" = false ->
  msg_text msg <> "5" -> msg_text msg <> "6" -> msg_text msg <> "7" ->
  handle_text msg w = (Ret tt, log w (Send (msg_chat msg) MsgUseCommands)).
Proof.
  intros Hd. apply (handle_text_fallback msg w _ Hd).
  - apply reset_session_flags.
  - by rewrite reset_session_current_feature.
  - by rewrite reset_session_current_feature.
Qed.

(** X2: after [/menu] or [/start] no flow of the chat is left waiting for
    text: the next text that is neither a command nor one of the digit
    shortcuts 5, 6, 7 is answered with the hint to use the commands, and
    changes nothing else. *)
Theorem text_after_reset_gets_fallback (C : Collab) (m0 msg : message)
    (w : World) :
  msg_chat msg = msg_chat m0 ->
  startswith (msg_text msg) "/" = false ->
  msg_text msg <> "5" -> msg_text msg <> "6" -> msg_text msg <> "7" ->
  Forall (fun cmd : message -> M unit =>
            let w' := snd (cmd m0 w) in
            handle_text msg w' =
            (Ret tt, log w' (Send (msg_chat msg) MsgUseCommands)))
         [menu_command; start C].
Proof.
  intros Hchat Hcmd N5 N6 N7.
  repeat apply List.Forall_cons; [| |apply List.Forall_nil]; cbv zeta.
  - apply (handle_text_after_reset msg _ (session_of w (msg_chat m0)));
      try done.
    rewrite menu_sessions, Hchat. apply reset_lookup_session.
  - apply (handle_text_after_reset msg _ (session_of w (msg_chat m0)));
      try done.
    rewrite start_sessions, Hchat. apply reset_lookup_session.
Qed.

Lemma text_after_reset_gets_fallback_witness :
  let w' := snd (menu_command (text_message 7 "/menu")
                   (world_of 7 styling_session 0)) in
  handle_text (text_message 7 "hello") w' =
  (Ret tt, log w' (Send 7 MsgUseCommands)).
Proof.
  pose proof (text_after_reset_gets_fallback offline (text_message 7 "/menu")
                (text_message 7 "hello") (world_of 7 styling_session 0)) as H.
  apply List.Forall_cons_iff in H as [H _];
    [exact H|reflexivity|reflexivity|discriminate..].
Defined.

Lemma handle_text_digit (chat : Z) (w : World) :
  truthy (dict_get (session_of w chat) "waiting_for_payment_method") = false ->
  handle_text (text_message chat "5") w =
  (Ret tt,
   {| user_data :=
        <[chat := <["current_feature" := VStr "5"]> (session_of w chat)]>
          (user_data w);
      db := db w;
      trace := (trace w ++ [Send chat MsgFeature5Intro])%list |}) /\
  handle_text (text_message chat "6") w =
  (Ret tt,
   {| user_data :=
        <[chat := <["current_feature" := VStr "6"]> (session_of w chat)]>
          (user_data w);
      db := db w;
      trace := (trace w ++ [Send chat MsgFeature6Intro])%list |}).
Proof.
  intros Hwait. unfold session_of in *.
  assert (S5 : startswith "5" "/" = false) by reflexivity.
  assert (S6 : startswith "6" "/" = false) by reflexivity.
  assert (D5 : isdigit "5" && String.eqb "5" "5" = true) by reflexivity.
  assert (D65 : isdigit "6" && String.eqb "6" "5" = false) by reflexivity.
  assert (D6 : isdigit "6" && String.eqb "6" "6" = true) by reflexivity.
  unfold handle_text. cbn [msg_text msg_chat text_message].
  rewrite S5, S6, D5, D65, D6. clear S5 S6 D5 D65 D6.
  unfold init_session, session_set, the_session, send_message,
    invoke, emit, read_sessions, write_sessions, bind, ret.
  destruct (user_data w !! chat) as [d|] eqn:E; cbn [default from_option id] in Hwait;
    router_norm E; rewrite Hwait; router_norm E;
    rewrite ?insert_insert_eq; done.
Qed.

(** X3: the digit shortcuts select the feature of the next photo.  Unless
    the chat is choosing a payment method, a photo sent after the text 5
    goes to the background removal and a photo sent after the text 6 to the
    replacement handler -- whatever the session held before, and also for a
    chat without a session. *)
Theorem digit_shortcut_then_photo (C : Collab) (chat : Z) (photo : message)
    (w : World) :
  msg_chat photo = chat ->
  truthy (dict_get (session_of w chat) "waiting_for_payment_method") = false ->
  (let w1 := snd (handle_text (text_message chat "5") w) in
   process_photo C photo w1 =
   (Ret tt, log w1 (Call ProcessPhotoForBackgroundRemoval chat))) /\
  (let w1 := snd (handle_text (text_message chat "6") w) in
   process_photo C photo w1 =
   (Ret tt, log w1 (Call ProcessPhotoForAiReplace chat))).
Proof.
  intros Hchat Hwait. destruct (handle_text_digit chat w Hwait) as [H5 H6].
  rewrite H5, H6. cbv zeta. cbn [snd].
  unfold process_photo, try_except, bind, read_sessions, current_feature_of.
  rewrite Hchat. cbn [user_data fst snd]. rewrite !lookup_insert_eq.
  unfold dict_get. rewrite !lookup_insert_eq. split; reflexivity.
Qed.

Lemma digit_shortcut_then_photo_witness :
  let w1 := snd (handle_text (text_message 7 "5") empty_world) in
  process_photo offline (photo_message 7 "f1") w1 =
  (Ret tt, log w1 (Call ProcessPhotoForBackgroundRemoval 7)).
Proof.
  destruct (digit_shortcut_then_photo offline 7 (photo_message 7 "f1")
              empty_world) as [H _]; [reflexivity|reflexivity|exact H].
Defined.

Lemma try_except_total {A} (m h : M A) (w : World) :
  (forall w', exists a, fst (h w') = Ret a) ->
  exists a, fst (try_except m h w) = Ret a.
Proof.
  intros Hh. unfold try_except. destruct (m w) as [[a|] w']; simpl; eauto.
Qed.

(** X4: [process_photo] always returns, whatever the collaborators do, and
    never changes the ledger: the analysis of a photo costs no credits. *)
Theorem process_photo_total_and_free (C : Collab) (msg : message) (w : World) :
  fst (process_photo C msg w) = Ret tt /\
  db (snd (process_photo C msg w)) = db w.
Proof.
  split.
  - unfold process_photo.
    match goal with |- fst (try_except ?m ?h w) = _ =>
      destruct (try_except_total m h w) as [[] H]; [|exact H] end.
    intros w'. exists tt. by destruct (msg_chat msg =? 0).
  - assert (Hk : keeps_db (process_photo C msg)); [|apply Hk].
    unfold process_photo, photo_symmetry, photo_face_shape,
      photo_attractiveness, photo_default, download_largest, invoke.
    frame.
Qed.

(** ** The requested analyses of a photo *)

Ltac photo_unfold :=
  unfold process_photo, photo_face_shape, photo_symmetry, download_largest,
    _reset_all_waiting_states, init_session, session_set, session_update,
    the_session, send_message, send_photo, invoke, emit, ask,
    read_sessions, write_sessions, try_except, bind, ret.

(** X5: a photo sent while feature 2 is selected, once downloaded and
    analysed.  Without a face, the photo is stored, the feature stays
    selected and the user is told that no face was found.  With a face and
    its recommendations, the shape, the measurements, the annotated picture
    and the photo are stored, the feature is cleared, and the user receives
    the annotated picture with the result and then the hairstyle offer. *)
Theorem requested_face_shape_analysis (C : Collab) (msg : message) (w : World)
    (d : session) (file : string) (img : bytes) (r : option string * bytes * list (string * Z)) :
  user_data w !! msg_chat msg = Some d ->
  is_str (dict_get d "current_feature") "2" = true ->
  last (msg_photo msg) = Some file ->
  download_file C file = Ret img ->
  analyze_face_shape C img = Ret r ->
  let w' := snd (process_photo C msg w) in
  match r with
  | (None, _, _) =>
      user_data w' !! msg_chat msg = Some (<["image_data" := VBytes img]> d) /\
      new_events w w' =
        [Send (msg_chat msg) MsgProcessing; Send (msg_chat msg) MsgNoFace]
  | (Some shape, vis, ms) =>
      forall rec, get_recommendations C shape = Ret rec ->
      user_data w' !! msg_chat msg =
        Some (<["current_feature" := VNone]>
                (<["processed_image" := VBytes vis]>
                   (<["face_measurements" := VMeasurements ms]>
                      (<["face_shape" := VStr shape]>
                         (<["image_data" := VBytes img]> d))))) /\
      new_events w w' =
        [Send (msg_chat msg) MsgProcessing;
         SendPhoto (msg_chat msg) vis (MsgFaceShapeResult (fst rec));
         Send (msg_chat msg) MsgTryHairstyleOffer]
  end.
Proof.
  intros Hd Hf Hlast Hdl Han.
  assert (H3 : is_str (dict_get d "current_feature") "3" = false).
  { destruct (dict_get d "current_feature"); try done. simpl in *.
    apply String.eqb_eq in Hf. by subst. }
  assert (H5 : is_str (dict_get d "current_feature") "5" = false).
  { destruct (dict_get d "current_feature"); try done. simpl in *.
    apply String.eqb_eq in Hf. by subst. }
  assert (H6 : is_str (dict_get d "current_feature") "6" = false).
  { destruct (dict_get d "current_feature"); try done. simpl in *.
    apply String.eqb_eq in Hf. by subst. }
  assert (Hne : msg_photo msg <> []).
  { intros E. by rewrite E in Hlast. }
  cbv zeta. unfold new_events. photo_unfold. unfold current_feature_of.
  cbn [user_data fst snd]. rewrite Hd, H3, H5, H6, Hf.
  destruct (msg_photo msg) as [|f0 fs] eqn:Ep; [done|].
  rewrite Hlast, Hdl. router_norm Hd. rewrite Han.
  destruct r as [[[shape|] vis] ms].
  - intros rec Hrec. rewrite Hrec. router_norm Hd.
    split; [done|].
    rewrite <- !app_assoc. by rewrite drop_app_length.
  - router_norm Hd. split; [done|].
    rewrite <- !app_assoc. by rewrite drop_app_length.
Qed.

Lemma requested_face_shape_analysis_witness :
  let w := world_of 7 {[ "current_feature" := VStr "2" ]} 0 in
  new_events w (snd (process_photo vision_ok (photo_message 7 "f1") w)) =
  [Send 7 MsgProcessing;
   SendPhoto 7 [Byte.x02] (MsgFaceShapeResult "Oval");
   Send 7 MsgTryHairstyleOffer].
Proof.
  intros w.
  pose proof (requested_face_shape_analysis vision_ok (photo_message 7 "f1") w
                {[ "current_feature" := VStr "2" ]} "f1" [Byte.x01]
                (Some "oval", [Byte.x02], [("ratio", 150)])) as H.
  cbv zeta in H.
  destruct H with (rec := ("Oval", ["Bob"])) as [_ He];
    [reflexivity..|exact He].
Defined.

(** X6: a photo sent while feature 3 is selected, once downloaded and
    analysed.  On success the photo is stored, the session is reset (the
    feature and every waiting flag) and the user receives the picture with
    the score; without a face, or when the picture cannot be encoded, the
    photo is stored, the feature stays selected and the user gets the
    matching error text. *)
Theorem symmetry_photo (C : Collab) (msg : message) (w : World)
    (d : session) (file : string) (img : bytes) (r : symmetry_outcome) :
  user_data w !! msg_chat msg = Some d ->
  is_str (dict_get d "current_feature") "3" = true ->
  last (msg_photo msg) = Some file ->
  download_file C file = Ret img ->
  symmetry_analysis C img = Ret r ->
  let w' := snd (process_photo C msg w) in
  match r with
  | SymDone picture score =>
      user_data w' !! msg_chat msg =
        Some (reset_session (<["image_data" := VBytes img]> d)) /\
      new_events w w' =
        [Send (msg_chat msg) MsgSymmetryAnalysing;
         SendPhoto (msg_chat msg) picture (MsgSymmetryResult score)]
  | SymNoFace =>
      user_data w' !! msg_chat msg = Some (<["image_data" := VBytes img]> d) /\
      new_events w w' =
        [Send (msg_chat msg) MsgSymmetryAnalysing;
         Send (msg_chat msg) MsgNoFace]
  | SymEncodeFailed =>
      user_data w' !! msg_chat msg = Some (<["image_data" := VBytes img]> d) /\
      new_events w w' =
        [Send (msg_chat msg) MsgSymmetryAnalysing;
         Send (msg_chat msg) MsgImageProcessingError]
  end.
Proof.
  intros Hd Hf Hlast Hdl Han.
  cbv zeta. unfold new_events. photo_unfold. unfold current_feature_of.
  cbn [user_data fst snd]. rewrite Hd, Hf.
  destruct (msg_photo msg) as [|f0 fs] eqn:Ep; [done|].
  rewrite Hlast, Hdl. router_norm Hd. rewrite Han.
  destruct r; router_norm Hd; rewrite ?insert_insert_eq;
    (split; [done|]); rewrite <- !app_assoc; by rewrite drop_app_length.
Qed.

Lemma symmetry_photo_witness :
  let w := world_of 7 {[ "current_feature" := VStr "3" ]} 0 in
  new_events w (snd (process_photo symmetry_ok (photo_message 7 "f1") w)) =
  [Send 7 MsgSymmetryAnalysing;
   SendPhoto 7 [Byte.x03] (MsgSymmetryResult 87)].
Proof.
  intros w.
  pose proof (symmetry_photo symmetry_ok (photo_message 7 "f1") w
                {[ "current_feature" := VStr "3" ]} "f1" [Byte.x01]
                (SymDone [Byte.x03] 87)) as H.
  cbv zeta in H.
  destruct H as [_ He]; [reflexivity..|exact He].
Defined.

(** ** The entry commands and the Stripe return link *)

Lemma handle_stripe_payment_same (C1 C2 : Collab) chat sid :
  same_stripe C1 C2 ->
  handle_stripe_payment C1 chat sid = handle_stripe_payment C2 chat sid.
Proof.
  intros (_ & Hd & _). unfold handle_stripe_payment. by rewrite Hd.
Qed.

Lemma stripe_return_same (C1 C2 : Collab) chat sid :
  same_stripe C1 C2 ->
  stripe_return C1 chat sid = stripe_return C2 chat sid.
Proof.
  intros (Hs & Hd & _). unfold stripe_return. by rewrite Hs, Hd.
Qed.

(** X7: [start] asks neither crypto provider: two sets of collaborators
    that agree on the Stripe status, the Stripe payment data and the
    initial credits give the same result for every message, also for the
    [success_] links of crypto payments. *)
Theorem start_ignores_crypto_providers (C1 C2 : Collab) (msg : message)
    (w : World) :
  same_stripe C1 C2 -> start C1 msg w = start C2 msg w.
Proof.
  intros Hsame. unfold start.
  pose proof Hsame as (Hs & Hd & Hi). rewrite Hi.
  destruct (split_ws (msg_text msg)) as [|w0 [|params rest]]; try reflexivity.
  rewrite !(handle_stripe_payment_same C1 C2) by done.
  rewrite (stripe_return_same C1 C2) by done.
  destruct (startswith params "success_payment_"); [reflexivity|].
  unfold start_payment_param.
  destruct (startswith params "success_" || startswith params "success-")
    eqn:Es; [reflexivity|].
  reflexivity.
Qed.

Lemma start_ignores_crypto_providers_witness :
  start offline (text_message 7 "/start success_INV1") empty_world =
  start crypto_bot_paid (text_message 7 "/start success_INV1") empty_world.
Proof.
  apply (start_ignores_crypto_providers offline crypto_bot_paid).
  repeat split.
Defined.

(** X8: [faceshape_command] never touches the ledger.  It fails exactly
    when the session stores a face shape that has no entry in the criteria
    table; by then feature 2 is already selected and nothing was sent.
    Otherwise it sends the method menu once -- with the description of the
    stored shape, when there is one -- and sets
    [awaiting_analysis_method]. *)
Theorem faceshape_command_outcome (C : Collab) (msg : message) (w : World) :
  let r := faceshape_command C msg w in
  let d := session_of w (msg_chat msg) in
  db (snd r) = db w /\
  match d !! "face_shape" with
  | Some shape =>
      match face_shape_criteria C shape with
      | None =>
          fst r = Raise /\ trace (snd r) = trace w /\
          user_data (snd r) !! msg_chat msg =
            Some (<["current_feature" := VStr "2"]> d)
      | Some description =>
          fst r = Ret tt /\
          trace (snd r) =
            (trace w ++ [Send (msg_chat msg)
                           (MsgChooseAnalysisMethod (Some description))])%list /\
          user_data (snd r) !! msg_chat msg =
            Some (<["awaiting_analysis_method" := VBool true]>
                    (<["current_feature" := VStr "2"]> d))
      end
  | None =>
      fst r = Ret tt /\
      trace (snd r) =
        (trace w ++ [Send (msg_chat msg) (MsgChooseAnalysisMethod None)])%list /\
      user_data (snd r) !! msg_chat msg =
        Some (<["awaiting_analysis_method" := VBool true]>
                (<["current_feature" := VStr "2"]> d))
  end.
Proof.
  cbv zeta. unfold session_of, faceshape_command, init_session, session_set,
    the_session, send_message, emit, read_sessions, write_sessions, raise,
    bind, ret.
  destruct (user_data w !! msg_chat msg) as [d|] eqn:E; router_norm E;
    cbn [default from_option id].
  - rewrite lookup_insert_ne by done.
    destruct (d !! "face_shape") as [shape|]; router_norm E.
    + destruct (face_shape_criteria C shape); router_norm E;
        rewrite ?insert_insert_eq; done.
    + rewrite ?insert_insert_eq; done.
  - rewrite lookup_insert_ne by done. rewrite !lookup_empty. router_norm E.
    rewrite ?insert_insert_eq; done.
Qed.

(** X9: [try_hairstyle_command] always returns and never charges.  With an
    analysed face and at least two credits it starts the selection: the
    waiting flag is set, the customisation starts at the gender, the stored
    shape is kept, and the user is told the price with the balance and then
    asked to choose. *)
Theorem try_hairstyle_entry (msg : message) (w : World) :
  let r := try_hairstyle_command msg w in
  fst r = Ret tt /\ db (snd r) = db w /\
  forall d shape,
    user_data w !! msg_chat msg = Some d -> d !! "face_shape" = Some shape ->
    2 <= balance w (msg_chat msg) ->
    user_data (snd r) =
      <[msg_chat msg :=
          <["face_shape" := shape]>
            (<["customization_state" := VStr "selecting_gender"]>
               (<["waiting_for_hairstyle_selection" := VBool true]> d))]>
        (user_data w) /\
    new_events w (snd r) =
      [Send (msg_chat msg) (MsgTryCost 2 (balance w (msg_chat msg)));
       Send (msg_chat msg) MsgTryHairstyle].
Proof.
  cbv zeta. unfold new_events, balance, try_hairstyle_command, session_index,
    session_set, the_session, send_message, emit, read_sessions, read_db,
    write_sessions, raise, bind, ret, dict_has.
  destruct (user_data w !! msg_chat msg) as [d|] eqn:E; router_norm E.
  2: { split; [done|]. split; [done|]. by intros. }
  destruct (d !! "face_shape") as [shape|] eqn:Es.
  2: { rewrite bool_decide_eq_false_2 by (by intros [? ?]). cbn [negb].
       router_norm E.
       split; [done|]. split; [done|]. intros d' s' [= <-] Hs. congruence. }
  rewrite bool_decide_eq_true_2 by eauto. cbn [negb]. router_norm E.
  destruct (get_user_credits (db w) (msg_chat msg) <? 2) eqn:Eb; router_norm E.
  - split; [done|]. split; [done|].
    intros d' s' [= <-] _ Hb. apply Z.ltb_lt in Eb. lia.
  - rewrite Es. router_norm E.
    split; [done|]. split; [done|]. intros d' s' [= <-] Hs' _.
    assert (s' = shape) as -> by congruence.
    rewrite !insert_insert_eq. split; [done|].
    rewrite <- !app_assoc. by rewrite drop_app_length.
Qed.

Lemma try_hairstyle_entry_witness :
  let w := world_of 7 {[ "face_shape" := VStr "oval" ]} 5 in
  new_events w (snd (try_hairstyle_command (text_message 7 "/try") w)) =
  [Send 7 (MsgTryCost 2 5); Send 7 MsgTryHairstyle].
Proof.
  intros w.
  destruct (try_hairstyle_entry (text_message 7 "/try") w) as (_ & _ & H).
  destruct (H {[ "face_shape" := VStr "oval" ]} (VStr "oval")) as [_ He];
    [reflexivity|reflexivity|vm_compute; discriminate|exact He].
Defined.

(** ** The ledger during a generation *)

Lemma bind_after_keeps_db {A B} (m : M A) (k : A -> M B)
    (R : outcome B * World -> Prop) (d0 : Database) (w : World) :
  keeps_db m -> db w = d0 ->
  (forall w', db w' = d0 -> R (Raise, w')) ->
  (forall a w', db w' = d0 -> R (k a w')) ->
  R (bind m k w).
Proof.
  intros Hm Hw Hraise Hk. unfold bind. specialize (Hm w).
  destruct (m w) as [[a|] w']; simpl in *.
  - apply Hk. congruence.
  - apply Hraise. congruence.
Qed.

(** X10: [generate_hairstyle] touches the ledger in one way only: either not
    at all, or it returned normally after the single charge of two credits
    and the last thing it did was to send the picture.  A run that fails
    leaves the ledger as it was. *)
Theorem generate_hairstyle_ledger (C : Collab) (chat : Z) (w : World) :
  charged_for_photo chat (db w) (generate_hairstyle C chat w) /\
  (fst (generate_hairstyle C chat w) = Raise ->
   db (snd (generate_hairstyle C chat w)) = db w).
Proof.
  set (R := fun r : outcome unit * World =>
              charged_for_photo chat (db w) r /\
              (fst r = Raise -> db (snd r) = db w)).
  change (R (generate_hairstyle C chat w)).
  assert (Hraise : forall w', db w' = db w -> R (Raise, w')).
  { intros w' Hw'. split; [by left|done]. }
  assert (Hw : db w = db w) by done.
  revert Hw. generalize w at 1 3 as w0. intros w0 Hw0.
  unfold generate_hairstyle.
  repeat first
    [ eapply bind_after_keeps_db;
      [solve [auto with frame] | eassumption | exact Hraise | clear dependent w0; intros ? w0 Hw0]
    | match goal with
      | |- R (match ?x with _ => _ end _) => destruct x
      | |- R (raise _) => by apply Hraise
      end ].
  unfold R, charged_for_photo, try_except, bind, ask, read_db, write_db,
    send_photo, send_message, emit.
  destruct (get_available_hairstyles C a8 (dict_get a10 "selected_gender"));
    [|by split; [left|]].
  destruct (apply_hairstyle C a10 a7 (dict_get a10 "landmarks") a8 n)
    as [[[|b img]|]|]; cbn [fst snd db trace]; try (by split; [left|]).
  split; [|done]. right. rewrite Hw0. split; [done|]. split; [done|].
  eexists _, _. apply last_snoc.
Qed.

Lemma generate_hairstyle_ledger_witness :
  db (snd (generate_hairstyle generation_ok 7 (world_of 7 ∅ 5))) =
  db (world_of 7 ∅ 5).
Proof.
  apply (generate_hairstyle_ledger generation_ok 7 (world_of 7 ∅ 5)).
  reflexivity.
Defined.

(** ** Payments that are not credited, and those credited once *)

Lemma tx_status_eqb_completed s :
  tx_status_eqb s Completed = true <-> s = Completed.
Proof. destruct s; simpl; split; congruence. Qed.

Lemma stripe_true_completed C chat sid w :
  fst (handle_stripe_payment C chat sid w) = Ret true ->
  completed_in (db (snd (handle_stripe_payment C chat sid w))) sid.
Proof.
  unfold completed_in, handle_stripe_payment, add_credits, as_int,
    safe_send_message, send_message, emit, ask, read_db, write_db, raise,
    try_except, bind, ret.
  cbn [db fst snd].
  destruct (transactions (db w) !! sid) as [t|] eqn:Et.
  - destruct (tx_status_eqb (t_status t) Completed) eqn:Ec.
    + apply tx_status_eqb_completed in Ec. cbn [db fst snd]. eauto.
    + destruct (stripe_get_payment_data C sid) as [pd|]; cbn [db fst snd];
        [|discriminate].
      destruct (if opt_dict_truthy pd
                then dict_get_default (default ∅ pd) "credits" (VInt 5)
                else VInt 5); cbn [db fst snd]; try discriminate;
        intros _; eexists; (split; [apply lookup_insert_eq|done]).
  - cbn [db fst snd].
    destruct (stripe_get_payment_data C sid) as [pd|]; cbn [db fst snd];
      [|discriminate].
    destruct (users (db w) !! chat); cbn [db fst snd]; [|discriminate].
    destruct (if opt_dict_truthy pd
              then dict_get_default (default ∅ pd) "credits" (VInt 5)
              else VInt 5); cbn [db fst snd]; try discriminate;
      intros _; eexists; (split; [apply lookup_insert_eq|done]).
Qed.

(** X11: a Stripe payment is credited once.  When [handle_stripe_payment]
    reports success the transaction of the session is completed, and
    handling the same session again, any number of times and whatever
    Stripe answers, leaves the ledger as it is. *)
Theorem stripe_payment_credited_once (C : Collab) (answers : list Collab)
    (chat : Z) (sid : string) (w : World) :
  fst (handle_stripe_payment C chat sid w) = Ret true ->
  let w1 := snd (handle_stripe_payment C chat sid w) in
  completed_in (db w1) sid /\
  db (replay handle_stripe_payment answers chat sid w1) = db w1.
Proof.
  intros Htrue w1. pose proof (stripe_true_completed _ _ _ _ Htrue) as Hc.
  split; [done|].
  apply (replay_db _ _ _ _ _ (fun d => completed_in d sid)); [|done].
  intros C' w' (t & Ht & Hs). by rewrite (stripe_completed _ _ _ _ t Ht Hs).
Qed.

Lemma stripe_payment_credited_once_witness :
  let w1 := snd (handle_stripe_payment stripe_paid 7 "cs_1"
                   (ledger_world Pending)) in
  db (replay handle_stripe_payment [stripe_paid; offline] 7 "cs_1" w1) = db w1.
Proof.
  apply (stripe_payment_credited_once stripe_paid [stripe_paid; offline] 7
           "cs_1" (ledger_world Pending)).
  reflexivity.
Defined.

(** X12: [handle_stripe_payment] for a session without transaction and a
    user without account reports failure and changes nothing; it says
    nothing either, unless the payment data cannot be fetched, which is
    answered with the processing error. *)
Theorem stripe_payment_unknown_user (C : Collab) (chat : Z) (sid : string)
    (w : World) :
  transactions (db w) !! sid = None ->
  users (db w) !! chat = None ->
  handle_stripe_payment C chat sid w =
  match stripe_get_payment_data C sid with
  | Ret _ => (Ret false, w)
  | Raise => (Ret false, log w (Send chat MsgStripeProcessingError))
  end.
Proof.
  intros Ht Hu. unfold handle_stripe_payment, safe_send_message, send_message,
    emit, ask, read_db, try_except, bind, ret.
  cbn [db fst snd]. rewrite Ht. cbn [db fst snd].
  destruct (stripe_get_payment_data C sid); [|done].
  rewrite Hu. by destruct w.
Qed.

Lemma stripe_payment_unknown_user_witness :
  handle_stripe_payment stripe_paid 9 "cs_9" (ledger_world Pending) =
  (Ret false, ledger_world Pending).
Proof.
  apply (stripe_payment_unknown_user stripe_paid 9 "cs_9"
           (ledger_world Pending)); reflexivity.
Defined.

(** X13: both payment handlers always return a boolean, whatever the
    providers do, and leave the sessions of all chats alone. *)
Theorem payment_handlers_return (C : Collab) (chat : Z) (pid : string)
    (w : World) :
  (exists ok, fst (handle_successful_payment C chat pid w) = Ret ok) /\
  (exists ok, fst (handle_stripe_payment C chat pid w) = Ret ok) /\
  user_data (snd (handle_successful_payment C chat pid w)) = user_data w /\
  user_data (snd (handle_stripe_payment C chat pid w)) = user_data w.
Proof.
  split; [|split; [|split]].
  - unfold handle_successful_payment. apply try_except_total.
    intros w'. by exists false.
  - unfold handle_stripe_payment. apply try_except_total.
    intros w'. by exists false.
  - apply keeps_sessions_handle_successful_payment.
  - apply keeps_sessions_handle_stripe_payment.
Qed.



Lemma py_float_floatable C v w :
  floatable C v -> exists a, py_float C v w = (Ret a, w).
Proof.
  destruct v; simpl; try done; eauto. intros [h ->]. eauto.
Qed.

(** X15: a payment the provider reports as successful but that has no
    transaction is reconstructed from the provider data, and refused without
    any change to the ledger when that is impossible: no data for a legacy
    payment, no data and no invoice for the others, or data whose package
    earns no credits. *)
Theorem unreconstructable_payment (C : Collab) (chat : Z) (pid : string)
    (w : World) (pd : option session) :
  transactions (db w) !! pid = None ->
  fst (check_provider C pid w) =
    Ret (VStr (success_status (provider_of pid)), pd) ->
  (opt_dict_truthy pd = false -> provider_of pid = LegacyCrypto ->
   handle_successful_payment C chat pid w =
   (Ret false, log w (Send chat MsgPaymentNotFound))) /\
  (opt_dict_truthy pd = false -> provider_of pid <> LegacyCrypto ->
   forall inv, cb_get_invoice C pid = Ret inv -> opt_dict_truthy inv = false ->
   handle_successful_payment C chat pid w =
   (Ret false, log w (Send chat MsgNoPaymentInfo))) /\
  (forall d, pd = Some d -> dict_truthy d = true ->
   floatable C (dict_get_default d "amount" (VInt 0)) ->
   cb_get_credits_by_package_id C (dict_get d "package_id") <= 0 ->
   handle_successful_payment C chat pid w =
   (Ret false, log w (Send chat MsgUnknownPackage))).
Proof.
  intros Ht Hp.
  assert (He : is_str (VStr (success_status (provider_of pid))) "error" = false).
  { by destruct (provider_of pid). }
  assert (Hstart : forall r,
    reconstruct_transaction C chat pid pd w = r ->
    fst r <> Raise ->
    handle_successful_payment C chat pid w = r).
  { intros r Hr Hnr. unfold handle_successful_payment, try_except, bind.
    rewrite check_provider_world, Hp. rewrite He. simpl.
    rewrite String.eqb_refl. simpl. unfold read_db. simpl. rewrite Ht.
    rewrite Hr. by destruct r as [[b|] w']. }
  assert (Hlegacy : provider_of pid = LegacyCrypto <->
            negb (startswith pid "TEST_") && negb (startswith pid "CP_") = false).
  { rewrite provider_of_legacy.
    destruct (startswith pid "TEST_"), (startswith pid "CP_"); simpl;
      intuition congruence. }
  split; [|split].
  - intros Hf Hl. apply Hstart; [|done].
    unfold reconstruct_transaction, bind, send_message, emit, ret.
    rewrite Hf. apply Hlegacy in Hl. by rewrite Hl.
  - intros Hf Hl inv Hinv Hfi. apply Hstart; [|done].
    unfold reconstruct_transaction, bind, send_message, emit, ret, ask.
    rewrite Hf.
    destruct (negb (startswith pid "TEST_") && negb (startswith pid "CP_"))
      eqn:E; [|by destruct Hl; apply Hlegacy].
    rewrite Hinv, Hfi. done.
  - intros d -> Hd Hfl Hcr. apply Hstart; [|done].
    unfold reconstruct_transaction, bind, send_message, emit, ret.
    cbn [opt_dict_truthy default from_option id]. rewrite Hd.
    destruct (py_float_floatable C _ w Hfl) as [a ->].
    apply Z.ltb_ge in Hcr. by rewrite Hcr.
Qed.

Lemma unreconstructable_payment_witness :
  handle_successful_payment stripe_paid 7 "cs_9" empty_world =
  (Ret false, log empty_world (Send 7 MsgUnknownPackage)).
Proof.
  destruct (unreconstructable_payment stripe_paid 7 "cs_9" empty_world
              (Some {[ "credits" := VInt 5 ]}))
    as (_ & _ & H); [reflexivity|reflexivity|].
  apply (H {[ "credits" := VInt 5 ]});
    [reflexivity|reflexivity|exact I|vm_compute; discriminate].
Defined.

(** ** The reset command and the choice of a payment method *)

Ltac desk_unfold :=
  unfold noted, with_world, with_session, lift, notify, get_stripe_active,
    activate_stripe, ntry, nbind, nret, nraise,
    init_session, session_set, the_session, read_sessions,
    write_sessions, read_db, write_db, ask, bind, ret, raise.

Ltac desk_norm E :=
  repeat (progress (cbv beta iota zeta;
                    cbn [user_data db trace fst snd world andb orb negb
                         stripe_integration_active notices];
                    rewrite ?E, ?lookup_insert_eq)).

(** X16: [reset_command] always returns, removes the session of the chat
    and leaves the ledger alone: the credits survive a reset, the analysis
    does not -- [/try] is then answered with the request for a photo. *)
Theorem reset_command_forgets (msg : message) (s : Desk) :
  let s' := snd (reset_command msg s) in
  fst (reset_command msg s) = Ret tt /\
  user_data (world s') = delete (msg_chat msg) (user_data (world s)) /\
  db (world s') = db (world s) /\
  try_hairstyle_command (text_message (msg_chat msg) "/try") (world s') =
  (Ret tt, log (world s') (Send (msg_chat msg) MsgNoPhotoYet)).
Proof.
  cbv zeta. unfold reset_command. desk_unfold.
  cbn [user_data db trace fst snd world].
  split; [done|]. split; [done|]. split; [done|].
  unfold try_hairstyle_command, bind, read_sessions, send_message, emit, log.
  cbn [user_data db trace fst snd world msg_chat text_message].
  by rewrite lookup_delete_eq.
Qed.

(** X17: [handle_payment_method_selection] on a non-empty answer of a chat
    with a session.  The answer 1, and 2 when the Stripe integration is
    active, stores the method (crypto for 1, card for 2), ends the wait for
    a method, starts the wait for a package and shows the packages of that
    method; any other answer changes nothing and repeats which numbers are
    accepted. *)
Theorem payment_method_selection (msg : message) (s : Desk) (d : session) :
  user_data (world s) !! msg_chat msg = Some d ->
  msg_text msg <> "" ->
  handle_payment_method_selection msg s =
  if valid_method_choice (stripe_integration_active s) (msg_text msg)
  then
    (Ret tt,
     noted
       (with_world s
          (with_session (world s) (msg_chat msg)
             (<["waiting_for_package_selection" := VBool true]>
                (<["selected_payment_method" :=
                     VStr (if String.eqb (msg_text msg) "1"
                           then "crypto" else "card")]>
                   (<["waiting_for_payment_method" := VBool false]> d)))))
       (msg_chat msg)
       (if String.eqb (msg_text msg) "1"
        then NoticeBuyCreditsCrypto else NoticeBuyCredits))
  else
    (Ret tt,
     noted s (msg_chat msg)
       (if stripe_integration_active s
        then NoticeChooseMethodOneOrTwo else NoticeChooseMethodOne)).
Proof.
  intros Hd Hne. apply String.eqb_neq in Hne.
  unfold handle_payment_method_selection, valid_method_choice. rewrite Hne.
  destruct s as [w active ns]. cbn [world stripe_integration_active] in *.
  desk_unfold.
  destruct active, (String.eqb (msg_text msg) "1") eqn:E1,
    (String.eqb (msg_text msg) "2") eqn:E2;
    desk_norm Hd; rewrite ?insert_insert_eq; reflexivity.
Qed.

Lemma payment_method_selection_witness :
  notices (snd (handle_payment_method_selection (text_message 7 "2")
                  (desk_of (world_of 7 ∅ 0) true))) =
  [(7, NoticeBuyCredits)].
Proof.
  rewrite (payment_method_selection (text_message 7 "2")
             (desk_of (world_of 7 ∅ 0) true) ∅);
    [reflexivity|reflexivity|discriminate].
Defined.

(** ** Creating a payment *)


Lemma create_payment_returns (S : Shop) (chat : Z) (method : value)
    (s : Desk) :
  exists ok, fst (_create_payment S chat method s) = Ret ok.
Proof.
  unfold _create_payment. desk_unfold.
  destruct (user_data (world s) !! chat) as [d|] eqn:E; desk_norm E;
    [|by eauto].
  destruct (truthy (dict_get d "selected_package")); desk_norm E; [|by eauto].
  destruct (dict_get d "selected_package") as [| | | | | | | | | |p];
    desk_norm E; try by eauto.
  destruct (is_str method "crypto"); desk_norm E.
  - destruct (cb_create_payment S (p_price p) (p_id p) chat) as [[info|]|];
      desk_norm E; eauto.
  - destruct (card_package S p) as [p'|]; desk_norm E; [|by eauto].
    destruct (stripe_create_payment S (p_price p') (p_id p') chat
                (p_credits p')) as [[info|]|]; desk_norm E; eauto.
Qed.

Lemma create_payment_crypto (S : Shop) (chat : Z) (s : Desk) (d : session)
    (p : package) (info : payment_info) :
  user_data (world s) !! chat = Some d ->
  dict_get d "selected_package" = VPackage p ->
  cb_create_payment S (p_price p) (p_id p) chat = Ret (Some info) ->
  _create_payment S chat (VStr "crypto") s =
  (Ret true,
   {| world :=
        {| user_data := user_data (world s);
           db := create_transaction chat (p_price p) (p_credits p)
                   (pi_payment_id info) (db (world s));
           trace := trace (world s) |};
      stripe_integration_active := stripe_integration_active s;
      notices :=
        (notices s ++
         [(chat, NoticePaymentCreated "payment_created" (p_credits p)
                   (p_price p) (pi_payment_url info))])%list |}).
Proof.
  intros Hd Hp Hpay. unfold _create_payment. desk_unfold.
  desk_norm Hd. rewrite Hp. cbn [truthy negb is_str].
  assert (Ec : String.eqb "crypto" "crypto" = true) by reflexivity.
  rewrite Ec. desk_norm Hd. rewrite Hpay. desk_norm Hd. reflexivity.
Qed.



Lemma package_choice_asks_method (S : Shop) (msg : message) (s : Desk)
    (d : session) (p : package) :
  user_data (world s) !! msg_chat msg = Some d ->
  truthy (dict_get d "selected_payment_method") = false ->
  isdigit (msg_text msg) = true ->
  1 <= int_of_digits (msg_text msg) ->
  stripe_get_credit_packages S !! Z.to_nat (int_of_digits (msg_text msg) - 1)
    = Some p ->
  let key := match stripe_api_key S with Some _ => true | None => false end in
  handle_package_selection S msg s =
  (Ret tt,
   {| world :=
        with_session (world s) (msg_chat msg)
          (<["waiting_for_payment_method" := VBool true]>
             (<["waiting_for_package_selection" := VBool false]>
                (<["selected_package" := VPackage p]> d)));
      stripe_integration_active := stripe_integration_active s || key;
      notices :=
        (notices s ++
         [(msg_chat msg,
           if stripe_integration_active s || key
           then NoticeMethodsBoth else NoticeMethodsCryptoOnly)])%list |}).
Proof.
  intros Hd Hm Hdig Hlo Hp key. subst key.
  destruct s as [w active ns]. cbn [world stripe_integration_active notices] in *.
  assert (Hc : is_str (dict_get d "selected_payment_method") "crypto" = false).
  { destruct (dict_get d "selected_payment_method"); try done.
    simpl in *. destruct (String.eqb s "crypto") eqn:Es; [|done].
    apply String.eqb_eq in Es. by subst. }
  unfold handle_package_selection. rewrite Hdig. desk_unfold.
  desk_norm Hd. rewrite Hc, Hm.
  assert (Hr : (0 <=? int_of_digits (msg_text msg) - 1) &&
               (int_of_digits (msg_text msg) - 1 <?
                Z.of_nat (length (stripe_get_credit_packages S))) = true).
  { apply andb_true_iff. split; [apply Z.leb_le; lia|]. apply Z.ltb_lt.
    apply lookup_lt_Some in Hp. lia. }
  rewrite Hr, Hp. desk_norm Hd. rewrite !insert_insert_eq.
  destruct (stripe_api_key S), active; desk_norm Hd; reflexivity.
Qed.

Lemma package_choice_creates_payment (S : Shop) (msg : message) (s : Desk)
    (d : session) (p : package) :
  user_data (world s) !! msg_chat msg = Some d ->
  let method := dict_get d "selected_payment_method" in
  let packages :=
    if is_str method "crypto"
    then cb_get_credit_packages S else stripe_get_credit_packages S in
  truthy method = true ->
  isdigit (msg_text msg) = true ->
  1 <= int_of_digits (msg_text msg) ->
  packages !! Z.to_nat (int_of_digits (msg_text msg) - 1) = Some p ->
  let s1 :=
    with_world s
      (with_session (world s) (msg_chat msg)
         (<["waiting_for_package_selection" := VBool false]>
            (<["selected_package" := VPackage p]> d))) in
  handle_package_selection S msg s =
  (Ret tt, snd (_create_payment S (msg_chat msg) method s1)).
Proof.
  intros Hd method packages Hm Hdig Hlo Hp s1. subst method packages s1.
  destruct s as [w active ns]. cbn [world stripe_integration_active notices] in *.
  destruct (create_payment_returns S (msg_chat msg)
              (dict_get d "selected_payment_method")
              (with_world {| world := w; stripe_integration_active := active;
                             notices := ns |}
                 (with_session w (msg_chat msg)
                    (<["waiting_for_package_selection" := VBool false]>
                       (<["selected_package" := VPackage p]> d)))))
    as (ok & Hok).
  assert (Hr : (0 <=? int_of_digits (msg_text msg) - 1) &&
               (int_of_digits (msg_text msg) - 1 <?
                Z.of_nat (length
                  (if is_str (dict_get d "selected_payment_method") "crypto"
                   then cb_get_credit_packages S
                   else stripe_get_credit_packages S))) = true).
  { apply andb_true_iff. split; [apply Z.leb_le; lia|]. apply Z.ltb_lt.
    apply lookup_lt_Some in Hp. lia. }
  unfold handle_package_selection. rewrite Hdig. desk_unfold.
  desk_norm Hd. rewrite Hr, Hp, Hm. desk_norm Hd.
  rewrite !insert_insert_eq.
  unfold with_world, with_session in Hok.
  cbn [world stripe_integration_active notices user_data db trace] in Hok.
  destruct (_create_payment S (msg_chat msg) _ _) as [[b|] s2]; [done|].
  by simpl in Hok.
Qed.

(** X20: [handle_package_selection] with the number of a package stores
    the package and ends the wait for a package.  With a method already
    chosen it then creates the payment for that chat and method and returns;
    without one it starts the wait for a method and shows the methods --
    both, after switching the Stripe integration on when an API key exists,
    or crypto only. *)
Theorem valid_package_choice (S : Shop) (msg : message) (s : Desk)
    (d : session) (p : package) :
  user_data (world s) !! msg_chat msg = Some d ->
  let method := dict_get d "selected_payment_method" in
  let packages :=
    if is_str method "crypto"
    then cb_get_credit_packages S else stripe_get_credit_packages S in
  isdigit (msg_text msg) = true ->
  1 <= int_of_digits (msg_text msg) ->
  packages !! Z.to_nat (int_of_digits (msg_text msg) - 1) = Some p ->
  let d1 := <["waiting_for_package_selection" := VBool false]>
              (<["selected_package" := VPackage p]> d) in
  let key := match stripe_api_key S with Some _ => true | None => false end in
  handle_package_selection S msg s =
  if truthy method
  then (Ret tt,
        snd (_create_payment S (msg_chat msg) method
               (with_world s (with_session (world s) (msg_chat msg) d1))))
  else (Ret tt,
        {| world :=
             with_session (world s) (msg_chat msg)
               (<["waiting_for_payment_method" := VBool true]> d1);
           stripe_integration_active := stripe_integration_active s || key;
           notices :=
             (notices s ++
              [(msg_chat msg,
                if stripe_integration_active s || key
                then NoticeMethodsBoth else NoticeMethodsCryptoOnly)])%list
        |}).
Proof.
  intros Hd method packages Hdig Hlo Hp d1 key.
  destruct (truthy method) eqn:Hm.
  - by apply package_choice_creates_payment.
  - apply package_choice_asks_method; try done.
    subst packages. destruct (is_str method "crypto") eqn:Hc; [|done].
    subst method. destruct (dict_get d "selected_payment_method"); try done.
    simpl in Hc, Hm. apply String.eqb_eq in Hc. by subst.
Qed.

Lemma valid_package_choice_witness :
  stripe_integration_active
    (snd (handle_package_selection shop (text_message 42 "2")
            (desk_of (world_of 42 ∅ 0) false))) = true.
Proof.
  erewrite (valid_package_choice shop (text_message 42 "2")
              (desk_of (world_of 42 ∅ 0) false) ∅);
    [reflexivity|reflexivity|reflexivity|vm_compute; discriminate|reflexivity].
Defined.

(** ** The purchase flow from the buy command on *)

Lemma buy_credits_state (C : Collab) (msg : message) (s : Desk) :
  buy_credits_command C msg s =
  (Ret tt,
   {| world :=
        {| user_data :=
             <[msg_chat msg :=
                 purchase_session (stripe_integration_active s)
                   (session_of (world s) (msg_chat msg))]>
               (user_data (world s));
           db := get_or_create_user (initial_credits C) (msg_chat msg)
                   (db (world s));
           trace := trace (world s) |};
      stripe_integration_active := stripe_integration_active s;
      notices :=
        (notices s ++
         [(msg_chat msg,
           if stripe_integration_active s
           then NoticeChoosePaymentMethod else NoticeBuyCreditsCrypto)])%list
   |}).
Proof.
  destruct s as [w active ns]. unfold buy_credits_command, purchase_session,
    session_of.
  desk_unfold. cbn [world stripe_integration_active notices].
  destruct (user_data w !! msg_chat msg) as [d|] eqn:E;
    destruct active; desk_norm E; cbn [default from_option id];
    rewrite ?insert_insert_eq; reflexivity.
Qed.


Lemma handle_text_awaiting_package (msg : message) (w : World) (d : session) :
  user_data w !! msg_chat msg = Some d ->
  startswith (msg_text msg) "/" = false ->
  truthy (dict_get d "waiting_for_payment_method") = false ->
  msg_text msg <> "5" -> msg_text msg <> "6" -> msg_text msg <> "7" ->
  is_str (dict_get d "current_feature") "5" = false ->
  is_str (dict_get d "current_feature") "6" = false ->
  truthy (dict_get d "waiting_for_package_selection") = true ->
  handle_text msg w =
  (Ret tt, log w (Call HandlePackageSelection (msg_chat msg))).
Proof.
  intros Hd Hcmd Hw N5 N6 N7 H5 H6 Hp.
  apply String.eqb_neq in N5, N6, N7.
  unfold_router. rewrite Hcmd. router_norm Hd.
  by rewrite Hw, N5, N6, N7, !andb_false_r, H5, H6, Hp.
Qed.

Lemma isdigit_not_command (s : string) :
  isdigit s = true -> startswith s "/" = false.
Proof.
  destruct s as [|c s]; [done|]. unfold isdigit. cbn [negb String.eqb andb all_digits].
  intros H. apply andb_true_iff in H as [H _]. apply andb_true_iff in H as [H _].
  unfold startswith. cbn [String.prefix].
  destruct (ascii_dec "/" c) as [<-|Hne]; [|done].
  vm_compute in H. discriminate.
Qed.

(** X21: a purchase without Stripe.  After [/buy] the number of a crypto
    package -- other than the shortcuts 5, 6, 7 and for a chat that was not
    choosing a payment method -- is routed to the package selection, which
    creates the payment: one transaction for that package is recorded for
    the user, the link is the second and last text sent, and the session
    holds the package and waits for a package no more. *)
Theorem crypto_only_purchase (C : Collab) (S : Shop) (m0 msg : message)
    (s : Desk) (p : package) (info : payment_info) :
  let chat := msg_chat m0 in
  stripe_integration_active s = false ->
  truthy (dict_get (session_of (world s) chat) "waiting_for_payment_method")
    = false ->
  msg_chat msg = chat ->
  isdigit (msg_text msg) = true ->
  msg_text msg <> "5" -> msg_text msg <> "6" -> msg_text msg <> "7" ->
  1 <= int_of_digits (msg_text msg) ->
  cb_get_credit_packages S !! Z.to_nat (int_of_digits (msg_text msg) - 1)
    = Some p ->
  cb_create_payment S (p_price p) (p_id p) chat = Ret (Some info) ->
  let s1 := snd (buy_credits_command C m0 s) in
  let r := handle_package_selection S msg s1 in
  handle_text msg (world s1) =
    (Ret tt, log (world s1) (Call HandlePackageSelection chat)) /\
  fst r = Ret tt /\
  db (world (snd r)) =
    create_transaction chat (p_price p) (p_credits p) (pi_payment_id info)
      (get_or_create_user (initial_credits C) chat (db (world s))) /\
  notices (snd r) =
    (notices s ++
     [(chat, NoticeBuyCreditsCrypto);
      (chat, NoticePaymentCreated "payment_created" (p_credits p) (p_price p)
               (pi_payment_url info))])%list /\
  user_data (world (snd r)) !! chat =
    Some (<["waiting_for_package_selection" := VBool false]>
            (<["selected_package" := VPackage p]>
               (purchase_session false (session_of (world s) chat)))).
Proof.
  intros chat Ha Hw Hc Hdig N5 N6 N7 Hlo Hp Hpay s1 r. subst r s1 chat.
  rewrite buy_credits_state, Ha. cbn [snd world]. rewrite <- Hc in *.
  set (d := session_of (world s) (msg_chat msg)) in *.
  split.
  { eapply handle_text_awaiting_package; cbn [user_data];
      [apply lookup_insert_eq|by apply isdigit_not_command|..|]; try done;
      unfold purchase_session, dict_get;
      rewrite ?lookup_insert_eq, ?lookup_insert_ne by done;
      rewrite ?lookup_insert_eq; done. }
  assert (Hsel : dict_get (purchase_session false d)
                   "selected_payment_method" = VStr "crypto").
  { unfold purchase_session, dict_get. rewrite lookup_insert_ne by done.
    by rewrite lookup_insert_eq. }
  erewrite package_choice_creates_payment;
    [|cbn [world user_data]; apply lookup_insert_eq
     |by rewrite Hsel|done|done|by rewrite Hsel].
  rewrite Hsel. unfold with_world, with_session.
  cbn [world user_data db trace stripe_integration_active notices].
  erewrite create_payment_crypto;
    [|cbn [world user_data]; apply lookup_insert_eq| |exact Hpay].
  2: { unfold dict_get. rewrite lookup_insert_ne by done.
       by rewrite lookup_insert_eq. }
  cbn [fst snd world user_data db trace notices].
  rewrite !insert_insert_eq, lookup_insert_eq, <- app_assoc.
  repeat split.
Qed.

Lemma crypto_only_purchase_witness :
  let s1 := snd (buy_credits_command offline (text_message 7 "/buy")
                   (desk_of empty_world false)) in
  notices (snd (handle_package_selection shop (text_message 7 "2") s1)) =
  [(7, NoticeBuyCreditsCrypto);
   (7, NoticePaymentCreated "payment_created" 12 1000 "pay/INV2")].
Proof.
  edestruct (crypto_only_purchase offline shop (text_message 7 "/buy")
               (text_message 7 "2") (desk_of empty_world false))
    as (_ & _ & _ & Hn & _);
    [reflexivity|reflexivity|reflexivity|reflexivity|discriminate
    |discriminate|discriminate|vm_compute; discriminate|reflexivity
    |reflexivity|exact Hn].
Defined.


